(** * Commit telemetry: the review-system classifier of [committelemetry.telemetry]

  A shallow embedding of [telemetry.py].  Python values that come out of
  [response.json()] are kept as JSON trees, exceptions are an explicit
  result type, and the HTTP requests go through a small state monad that
  records every URL fetched.  The two regular expressions of the module are
  regex syntax trees run by a derivative matcher.

  Text: a Python [str] is modelled as a Rocq [string] whose characters are
  the code points 0..255 (Latin-1).  Summaries with code points above 255
  are outside the model. *)

From Stdlib Require Import ZArith List String Ascii Bool Lia.
From Stdlib Require Import DecimalString DecimalZ.
Import ListNotations.

Set Implicit Arguments.
Set Warnings "-register-all".
Open Scope string_scope.

(* ################################################################# *)
(** ** Text helpers *)

Module Text.

Definition chars (s : string) : list ascii := list_ascii_of_string s.
Definition text (l : list ascii) : string := string_of_list_ascii l.

(** [str.lower()] on one Latin-1 code point: A-Z and the accented capitals
    0xC0-0xDE (0xD7, the multiplication sign, apart) move up by 32. *)
Definition lower (c : ascii) : ascii :=
  let n := N_of_ascii c in
  if ((65 <=? n) && (n <=? 90) ||
      (192 <=? n) && (n <=? 222) && negb (n =? 215))%N
  then ascii_of_N (n + 32) else c.

Definition lowercase (s : string) : string := text (map lower (chars s)).

Definition is_digit (c : ascii) : bool :=
  let n := N_of_ascii c in ((48 <=? n) && (n <=? 57))%N.

(** [\w] of a [str] pattern: [ch.isalnum() or ch == '_'].  Below 256 the
    alphanumerics are the ASCII letters and digits, the ordinal indicators
    0xAA and 0xBA, the micro sign 0xB5, the superscripts 0xB2 0xB3 0xB9, the
    vulgar fractions 0xBC-0xBE and the letters 0xC0-0xFF without 0xD7 and
    0xF7. *)
Definition is_word (c : ascii) : bool :=
  let n := N_of_ascii c in
  (is_digit c
   || (65 <=? n) && (n <=? 90)
   || (97 <=? n) && (n <=? 122)
   || (n =? 95)
   || (n =? 170) || (n =? 186) || (n =? 181)
   || (n =? 178) || (n =? 179) || (n =? 185)
   || (188 <=? n) && (n <=? 190)
   || (192 <=? n) && (n <=? 255) && negb (n =? 215) && negb (n =? 247))%N.

(** [str.isspace()] below 256. *)
Definition is_space (c : ascii) : bool :=
  let n := N_of_ascii c in
  ((9 <=? n) && (n <=? 13) || (28 <=? n) && (n <=? 32)
   || (n =? 133) || (n =? 160))%N.

(** [s.split(sep)] for a one-character separator: every occurrence cuts,
    empty pieces are kept, and the result is never empty. *)
Fixpoint split (sep : ascii) (s : string) : list string :=
  match s with
  | EmptyString => [EmptyString]
  | String c s' =>
      if Ascii.eqb c sep then EmptyString :: split sep s'
      else match split sep s' with
           | [] => [String c EmptyString]
           | piece :: pieces => String c piece :: pieces
           end
  end.

(** [str(n)] for an [int]. *)
Definition str_of_int (n : Z) : string := NilZero.string_of_int (Z.to_int n).

End Text.

(* ################################################################# *)
(** ** Regular expressions ([re]) *)

Module Re.
Import Text.

(** Members of a bracketed set. *)
Inductive item :=
| IWord                       (* \w *)
| IChr (c : ascii)            (* a literal member *)
| IRange (lo hi : ascii).     (* lo-hi *)

(** The fragment of [re] syntax the module's patterns need, closed under
    derivatives ([Void] and [Alt]).  Groups only record captures, which
    [bool(re.search(...))] never reads, so they leave no node. *)
Inductive regex :=
| Void
| Eps
| Bos                         (* ^ without re.MULTILINE *)
| Lit (c : ascii)             (* a literal character *)
| LitI (c : ascii)            (* a literal compiled under re.IGNORECASE *)
| OneOf (items : list item)   (* [...] *)
| Cat (r1 r2 : regex)
| Alt (r1 r2 : regex)
| Star (r : regex).

Definition item_matches (x : ascii) (i : item) : bool :=
  match i with
  | IWord => is_word x
  | IChr c => Ascii.eqb x c
  | IRange lo hi =>
      ((N_of_ascii lo <=? N_of_ascii x) && (N_of_ascii x <=? N_of_ascii hi))%N
  end.

Definition in_set (items : list item) (x : ascii) : bool :=
  existsb (item_matches x) items.

(** A literal string, character by character. *)
Fixpoint lits (mk : ascii -> regex) (l : list ascii) : regex :=
  match l with
  | [] => Eps
  | c :: l' => Cat (mk c) (lits mk l')
  end.

(** [r{n,}] *)
Fixpoint at_least (n : nat) (r : regex) : regex :=
  match n with
  | O => Star r
  | S n' => Cat r (at_least n' r)
  end.

(** [nullable bos r]: [r] matches the empty word; [bos] tells whether the
    current position is the start of the text. *)
Fixpoint nullable (bos : bool) (r : regex) : bool :=
  match r with
  | Void => false
  | Eps => true
  | Bos => bos
  | Lit _ | LitI _ | OneOf _ => false
  | Cat r1 r2 => nullable bos r1 && nullable bos r2
  | Alt r1 r2 => nullable bos r1 || nullable bos r2
  | Star _ => true
  end.

(** Brzozowski derivative by the character [x] read at a position that is
    the start of the text iff [bos]. *)
Fixpoint deriv (bos : bool) (x : ascii) (r : regex) : regex :=
  match r with
  | Void | Eps | Bos => Void
  | Lit c => if Ascii.eqb x c then Eps else Void
  | LitI c => if Ascii.eqb (lower x) (lower c) then Eps else Void
  | OneOf items => if in_set items x then Eps else Void
  | Cat r1 r2 =>
      Alt (Cat (deriv bos x r1) r2)
          (if nullable bos r1 then deriv bos x r2 else Void)
  | Alt r1 r2 => Alt (deriv bos x r1) (deriv bos x r2)
  | Star r1 => Cat (deriv bos x r1) (Star r1)
  end.

(** Some prefix of [s] matches [r]. *)
Fixpoint match_prefix (bos : bool) (r : regex) (s : list ascii) : bool :=
  nullable bos r ||
  match s with
  | [] => false
  | x :: s' => match_prefix false (deriv bos x r) s'
  end.

Fixpoint search_from (bos : bool) (r : regex) (s : list ascii) : bool :=
  match_prefix bos r s ||
  match s with
  | [] => false
  | _ :: s' => search_from false r s'
  end.

(** [bool(re.search(r, s))]: some substring of [s] matches.  The engine's
    choice among matches (leftmost, greedy) only shows in the match object. *)
Definition search (r : regex) (s : string) : bool :=
  search_from true r (chars s).

Definition is_nil {A} (l : list A) : bool :=
  match l with [] => true | _ => false end.

(** The words a regex matches, as a relation; the flag is [true] when the
    word starts at the start of the text. *)
Inductive matches : bool -> regex -> list ascii -> Prop :=
| M_Eps b : matches b Eps []
| M_Bos : matches true Bos []
| M_Lit b c : matches b (Lit c) [c]
| M_LitI b c x : lower x = lower c -> matches b (LitI c) [x]
| M_OneOf b items x : in_set items x = true -> matches b (OneOf items) [x]
| M_Cat b r1 r2 w1 w2 :
    matches b r1 w1 ->
    matches (b && match w1 with [] => true | _ => false end) r2 w2 ->
    matches b (Cat r1 r2) (w1 ++ w2)
| M_AltL b r1 r2 w : matches b r1 w -> matches b (Alt r1 r2) w
| M_AltR b r1 r2 w : matches b r2 w -> matches b (Alt r1 r2) w
| M_Star0 b r : matches b (Star r) []
| M_StarS b r x w1 w2 :
    matches b r (x :: w1) ->
    matches false (Star r) w2 ->
    matches b (Star r) (x :: w1 ++ w2).

End Re.

(* ################################################################# *)
(** ** Python values, exceptions and the request monad *)

Module Py.
Import Text.

(** What [response.json()] can return.  JSON numbers are taken to be
    integers: the fields the module reads ([is_patch]) are 0/1 flags. *)
Inductive json :=
| JNull
| JBool (b : bool)
| JInt (n : Z)
| JStr (s : string)
| JList (l : list json)
| JObj (kvs : list (string * json)).
(* [JObj] is a dict in insertion order: its keys are distinct. *)

Inductive exn :=
| TypeError
| KeyError
| IndexError
| AttributeError
| ValueError                    (* the body is not JSON *)
| ConnectionError               (* requests could not reach the server *)
| HTTPError (status : Z)        (* response.raise_for_status() *)
| NoSuchChangeset (msg : string).

Inductive result (A : Type) :=
| Ok (a : A)
| Raise (e : exn).
Arguments Ok {A} a.
Arguments Raise {A} e.

Definition rbind {A B} (m : result A) (k : A -> result B) : result B :=
  match m with
  | Ok a => k a
  | Raise e => Raise e
  end.

(** Requests made so far, oldest first. *)
Definition log := list string.

(** A computation that may issue HTTP requests and may raise. *)
Definition M (A : Type) := log -> result A * log.

Definition ret {A} (a : A) : M A := fun l => (Ok a, l).
Definition raise {A} (e : exn) : M A := fun l => (Raise e, l).
Definition bind {A B} (m : M A) (k : A -> M B) : M B :=
  fun l => match m l with
           | (Ok a, l') => k a l'
           | (Raise e, l') => (Raise e, l')
           end.
Definition lift {A} (r : result A) : M A := fun l => (r, l).

Declare Scope py_scope.
Delimit Scope py_scope with py.
Notation "x <- m ;; k" := (bind m (fun x => k))
  (at level 61, m at next level, right associativity) : py_scope.
Notation "x <-! m ;; k" := (rbind m (fun x => k))
  (at level 61, m at next level, right associativity) : py_scope.

(** [d[k]] on a dict. *)
Fixpoint lookup (k : string) (kvs : list (string * json)) : option json :=
  match kvs with
  | [] => None
  | (k', v) :: rest => if String.eqb k k' then Some v else lookup k rest
  end.

(** [o[k]] with a [str] key: a dict looks the key up, every other value
    refuses the subscript. *)
Definition getitem (o : json) (k : string) : result json :=
  match o with
  | JObj kvs => match lookup k kvs with
                | Some v => Ok v
                | None => Raise KeyError
                end
  | _ => Raise TypeError
  end.

(** [o[0]]. *)
Definition getitem0 (o : json) : result json :=
  match o with
  | JList (x :: _) => Ok x
  | JList [] => Raise IndexError
  | JStr (String c _) => Ok (JStr (String c EmptyString))
  | JStr EmptyString => Raise IndexError
  | JObj _ => Raise KeyError     (* JSON keys are strings, never 0 *)
  | _ => Raise TypeError
  end.

(** [for x in o]: a list gives its elements, a dict its keys, a string its
    characters. *)
Definition iter (o : json) : result (list json) :=
  match o with
  | JList l => Ok l
  | JObj kvs => Ok (map (fun kv => JStr (fst kv)) kvs)
  | JStr s => Ok (map (fun c => JStr (String c EmptyString)) (chars s))
  | _ => Raise TypeError
  end.

(** [len(o)]. *)
Definition len (o : json) : result nat :=
  match o with
  | JList l => Ok (List.length l)
  | JObj kvs => Ok (List.length kvs)
  | JStr s => Ok (String.length s)
  | _ => Raise TypeError
  end.

(** [o == n] for an [int] literal; [True == 1] holds in Python. *)
Definition eq_int (o : json) (n : Z) : bool :=
  match o with
  | JInt m => (m =? n)%Z
  | JBool b => ((if b then 1 else 0) =? n)%Z
  | _ => false
  end.

(** [o == s] for a [str] literal. *)
Definition eq_str (o : json) (s : string) : bool :=
  match o with
  | JStr t => String.eqb t s
  | _ => false
  end.

(** [re.search(r, o)] needs a string. *)
Definition re_search (r : Re.regex) (o : json) : result bool :=
  match o with
  | JStr s => Ok (Re.search r s)
  | _ => Raise TypeError
  end.

(** [o.split(',')]. *)
Definition split_comma (o : json) : result (list string) :=
  match o with
  | JStr s => Ok (split "," s)
  | _ => Raise AttributeError
  end.

(** [l.pop()]: the last element, [IndexError] on an empty list. *)
Definition pop {A} (l : list A) : result A :=
  match rev l with
  | [] => Raise IndexError
  | x :: _ => Ok x
  end.

(** A [requests.Response]: the status code and the decoded body, [None]
    when the body is not JSON. *)
Record response := { status_code : Z; body : option json }.

Definition raise_for_status (r : response) : result unit :=
  if ((400 <=? status_code r) && (status_code r <? 600))%Z
  then Raise (HTTPError (status_code r)) else Ok tt.

Definition response_json (r : response) : result json :=
  match body r with
  | Some j => Ok j
  | None => Raise ValueError
  end.

(** What the module reaches outside itself: [mozautomation]'s bug parser
    and the network. *)
Record world := {
  parse_bugs : string -> list Z;
  server : string -> result response
}.

(** [requests.get(url)]: the request is recorded, then answered. *)
Definition requests_get (W : world) (url : string) : M response :=
  fun l => (server W url, (l ++ [url])%list).

End Py.

(* ################################################################# *)
(** ** telemetry.py *)

Module Telemetry.
Import Text Re Py.
Local Open Scope py_scope.

(** Bugzilla attachment types *)
Definition ATTACHMENT_TYPE_MOZREVIEW := "text/x-review-board-request".
Definition ATTACHMENT_TYPE_GITHUB := "text/x-github-request".
Definition ATTACHMENT_TYPE_PHABRICATOR := "text/x-phabricator-request".

Definition BMO_API_URL := "https://bugzilla.mozilla.org/rest".

(** The pattern of the source, 'Differential Revision: ' followed by the two
    groups (S* ) and (D[0-9]{3,}), where S is the set [\w:/.]: the label, any
    run of word characters, colons, slashes and dots, then a capital D and
    three digits or more. *)
Definition PHABRICATOR_COMMIT_RE : regex :=
  Cat (lits Lit (chars "Differential Revision: "))
      (Cat (Star (OneOf [IWord; IChr ":"; IChr "/"; IChr "."]))
           (Cat (Lit "D") (at_least 3 (OneOf [IRange "0" "9"])))).

(** The pattern '^backed out ' compiled with [re.IGNORECASE]. *)
Definition BACKOUT_RE : regex :=
  Cat Bos (lits LitI (chars "backed out ")).

(** The review system used for a commit. *)
Inductive ReviewSystem :=
| phabricator
| mozreview
| bmo
| unknown
| not_applicable.

(** [system.value], the string sent as telemetry. *)
Definition value (system : ReviewSystem) : string :=
  match system with
  | phabricator => "phabricator"
  | mozreview => "mozreview"
  | bmo => "bmo"
  | unknown => "unknown"
  | not_applicable => "not_applicable"
  end.

(** Is the given BMO attachment JSON for a patch attachment?  [or] reads
    the content type only when the flag is not 1. *)
Definition is_patch (attachment : json) : result bool :=
  flag <-! getitem attachment "is_patch" ;;
  if eq_int flag 1 then Ok true
  else
    content_type <-! getitem attachment "content_type" ;;
    Ok (existsb (eq_str content_type)
          [ATTACHMENT_TYPE_MOZREVIEW;
           ATTACHMENT_TYPE_GITHUB;
           ATTACHMENT_TYPE_PHABRICATOR]).

Definition fetch_attachments (W : world) (bug_id : Z) : M json :=
  let url := BMO_API_URL ++ "/bug/" ++ str_of_int bug_id
             ++ "/attachment?exclude_fields=data" in
  response <- requests_get W url ;;
  _ <- lift (raise_for_status response) ;;
  lift (j <-! response_json response ;;
        bugs <-! getitem j "bugs" ;;
        getitem bugs (str_of_int bug_id)).

Definition fetch_bug_history (W : world) (bug_id : Z) : M json :=
  let url := BMO_API_URL ++ "/bug/" ++ str_of_int bug_id ++ "/history" in
  response <- requests_get W url ;;
  _ <- lift (raise_for_status response) ;;
  lift (j <-! response_json response ;;
        bugs <-! getitem j "bugs" ;;
        bug <-! getitem0 bugs ;;
        getitem bug "history").

Definition has_phab_markers (revision_description : json) : result bool :=
  re_search PHABRICATOR_COMMIT_RE revision_description.

Definition has_backout_markers (revision_description : json) : result bool :=
  re_search BACKOUT_RE revision_description.

(** If the node has more than one parent then it's a merge. *)
Definition has_merge_markers (revision_json : json) : result bool :=
  parents <-! getitem revision_json "parents" ;;
  n <-! len parents ;;
  Ok (1 <? n)%nat.

(** [[a for a in l if keep(a)]]: the test runs on every element, in order,
    and the first exception ends the comprehension. *)
Fixpoint comprehension (keep : json -> result bool) (l : list json)
  : result (list json) :=
  match l with
  | [] => Ok []
  | a :: rest =>
      k <-! keep a ;;
      kept <-! comprehension keep rest ;;
      Ok (if k then a :: kept else kept)
  end.

(** The [for patch_attachment in patches] loop of [has_mozreview_markers]. *)
Fixpoint mozreview_loop (patches : list json) : result bool :=
  match patches with
  | [] => Ok false
  | patch_attachment :: rest =>
      content_type <-! getitem patch_attachment "content_type" ;;
      if eq_str content_type ATTACHMENT_TYPE_MOZREVIEW then Ok true
      else mozreview_loop rest
  end.

Definition has_mozreview_markers (attachments : json) : result bool :=
  l <-! iter attachments ;;
  patches <-! comprehension is_patch l ;;
  mozreview_loop patches.

(** The inner loop of [has_bmo_patch_review_markers]: [Ok true] is the
    [return True], [Ok false] the end of the loop. *)
Fixpoint changes_loop (changes : list json) : result bool :=
  match changes with
  | [] => Ok false
  | change :: rest =>
      field_name <-! getitem change "field_name" ;;
      if negb (eq_str field_name "flagtypes.name") then changes_loop rest
      else
        added <-! getitem change "added" ;;
        flags_added <-! split_comma added ;;
        if existsb (String.eqb "review+") flags_added then Ok true
        else changes_loop rest
  end.

(** The outer loop, over the change groups. *)
Fixpoint history_loop (groups : list json) : result bool :=
  match groups with
  | [] => Ok false
  | change_group :: rest =>
      cs <-! getitem change_group "changes" ;;
      changes <-! iter cs ;;
      found <-! changes_loop changes ;;
      if found then Ok true else history_loop rest
  end.

Definition has_bmo_patch_review_markers (attachments bug_history : json)
  : result bool :=
  (* 1. Does this bug have at least one patch attached?  Raw patches only. *)
  l <-! iter attachments ;;
  patches <-! comprehension
                (fun a => flag <-! getitem a "is_patch" ;; Ok (eq_int flag 1))
                l ;;
  match patches with
  | [] => Ok false
  | _ :: _ =>
      (* 2. Does this bug have a review+ flag? *)
      groups <-! iter bug_history ;;
      history_loop groups
  end.

Definition determine_review_system (W : world) (revision_json : json)
  : M ReviewSystem :=
  summary <- lift (getitem revision_json "desc") ;;
  (* 0. Check for changesets that don't need review. *)
  backout <- lift (has_backout_markers summary) ;;
  skip <- (if backout then ret true
           else lift (has_merge_markers revision_json)) ;;
  if skip then ret not_applicable
  else
    (* 1. Check for Phabricator because it's easiest. *)
    phab <- lift (has_phab_markers summary) ;;
    if phab then ret phabricator
    else
      match summary with
      | JStr s =>
          match pop (parse_bugs W s) with
          | Raise IndexError =>
              (* We couldn't find a bug ID in the summary. *)
              ret unknown
          | Raise e => raise e
          | Ok bug_id =>
              attachments <- fetch_attachments W bug_id ;;
              bug_history <- fetch_bug_history W bug_id ;;
              (* 2. Check BMO for MozReview review markers. *)
              moz <- lift (has_mozreview_markers attachments) ;;
              if moz then ret mozreview
              else
                (* 3. Check for a review using just BMO attachments. *)
                rev <- lift (has_bmo_patch_review_markers
                               attachments bug_history) ;;
                if rev then ret bmo else ret unknown
          end
      | _ => raise TypeError   (* not reached: re.search raised before *)
      end.

(** Build a telemetry.mozilla.org ping payload for the given changeset ID. *)
Definition payload_for_changeset (W : world) (changesetid repo_url : string)
  : M json :=
  response <- requests_get W (repo_url ++ "/json-rev/" ++ changesetid) ;;
  if (status_code response =? 404)%Z then
    raise (NoSuchChangeset
             ("The changeset " ++ changesetid
              ++ " does not exist in repository " ++ repo_url))
  else
    _ <- lift (raise_for_status response) ;;
    j <- lift (response_json response) ;;
    system <- determine_review_system W j ;;
    ret (JObj [("changesetID", JStr changesetid);
               ("reviewSystemUsed", JStr (value system))]).

End Telemetry.

(* ################################################################# *)
(** ** Well-formed inputs, as the tracker and the repository serve them *)

Module Shape.
Import Text Re Py Telemetry.

(** A Bugzilla attachment: the patch flag and the content type. *)
Record attachment := { is_patch_flag : Z; content_type : string }.

(** One field change of a bug's history. *)
Record change := { field_name : string; added : string }.

(** [j] is a JSON object that carries the fields of [a]; other fields are
    free. *)
Definition attachment_of (j : json) (a : attachment) : Prop :=
  getitem j "is_patch" = Ok (JInt (is_patch_flag a)) /\
  getitem j "content_type" = Ok (JStr (content_type a)).

Definition change_of (j : json) (c : change) : Prop :=
  getitem j "field_name" = Ok (JStr (field_name c)) /\
  getitem j "added" = Ok (JStr (added c)).

(** A change group is an object whose ['changes'] is a list of changes. *)
Definition group_of (j : json) (g : list change) : Prop :=
  exists cs, getitem j "changes" = Ok (JList cs) /\ Forall2 change_of cs g.

Definition attachments_of (j : json) (atts : list attachment) : Prop :=
  exists l, j = JList l /\ Forall2 attachment_of l atts.

Definition history_of (j : json) (h : list (list change)) : Prop :=
  exists l, j = JList l /\ Forall2 group_of l h.

(** The raw patch flag is set. *)
Definition strict_patch (a : attachment) : bool := (is_patch_flag a =? 1)%Z.

(** The attachment is a MozReview request. *)
Definition mozreview_request (a : attachment) : bool :=
  String.eqb (content_type a) ATTACHMENT_TYPE_MOZREVIEW.

(** A patch attachment: the flag is set or the content type is one of the
    three request types. *)
Definition patch_attachment (a : attachment) : bool :=
  strict_patch a ||
  existsb (String.eqb (content_type a))
    [ATTACHMENT_TYPE_MOZREVIEW; ATTACHMENT_TYPE_GITHUB;
     ATTACHMENT_TYPE_PHABRICATOR].

(** The change sets the approval flag: the flag field, with the token
    [review+] among the comma-separated values added. *)
Definition approval (c : change) : bool :=
  String.eqb (field_name c) "flagtypes.name" &&
  existsb (String.eqb "review+") (split "," (added c)).

(** The summary starts, at its first character, with the phrase
    "backed out " up to case. *)
Definition starts_with_backout (s : string) : Prop :=
  exists p rest, s = p ++ rest /\ lowercase p = "backed out ".

(** A character of the address part of a revision marker. *)
Definition address_char (c : ascii) : bool :=
  is_word c || Ascii.eqb c ":" || Ascii.eqb c "/" || Ascii.eqb c ".".

(** The summary holds a marker line: the label, an address made of word
    characters, colons, slashes and dots, then D and three digits or more. *)
Definition has_revision_marker (s : string) : Prop :=
  exists pre addr digits post,
    s = pre ++ "Differential Revision: " ++ addr ++ "D" ++ digits ++ post /\
    forallb address_char (chars addr) = true /\
    3 <= String.length digits /\
    forallb is_digit (chars digits) = true.

(** The tracker answers both requests for [bug_id], whatever was fetched
    before. *)
Definition tracker_serves (W : world) (bug_id : Z)
    (attachments bug_history : json) : Prop :=
  (forall l, exists l', fetch_attachments W bug_id l = (Ok attachments, l')) /\
  (forall l, exists l', fetch_bug_history W bug_id l = (Ok bug_history, l')).

(** The commit metadata has a string summary and a list of parents. *)
Definition commit_of (revision_json : json) (summary : string)
    (parents : list json) : Prop :=
  getitem revision_json "desc" = Ok (JStr summary) /\
  getitem revision_json "parents" = Ok (JList parents).

(** The tokens of the [ReviewSystem] enumeration. *)
Definition review_system_tokens : list string :=
  ["phabricator"; "mozreview"; "bmo"; "unknown"; "not_applicable"].

(** The telemetry record for a commit and a classification. *)
Definition telemetry_record (changesetid : string) (system : ReviewSystem)
  : json :=
  JObj [("changesetID", JStr changesetid);
        ("reviewSystemUsed", JStr (value system))].

(** The attachment with a GitHub request relabelled as [ct]; every other
    attachment is left as it is. *)
Definition relabel_github (ct : string) (a : attachment) : attachment :=
  if String.eqb (content_type a) ATTACHMENT_TYPE_GITHUB
  then {| is_patch_flag := is_patch_flag a; content_type := ct |}
  else a.

End Shape.

(* ################################################################# *)
(** ** Sample commits, bugs and servers *)

Module Examples.
Import Text Re Py Telemetry Shape.

Definition newline : string := String (ascii_of_N 10) EmptyString.

(** What [json-rev] answers for a changeset. *)
Definition revision (desc : string) (parents : list string) : json :=
  JObj [("node", JStr "e0cb209d9f3f307826944eae2d552b5a5bbe83e4");
        ("desc", JStr desc);
        ("parents", JList (map JStr parents))].

Definition parent1 := "deafa2891c61a4570bcadb80b90adac0930b1d10".
Definition parent2 := "2926745a0fee53547f6e464321cbe4915c2fff7f".

Definition attachment_json (id flag : Z) (ct : string) : json :=
  JObj [("id", JInt id); ("is_patch", JInt flag); ("content_type", JStr ct)].

Definition change_json (name added : string) : json :=
  JObj [("field_name", JStr name); ("removed", JStr ""); ("added", JStr added)].

Definition group_json (who : string) (cs : list json) : json :=
  JObj [("who", JStr who); ("changes", JList cs)].

Definition ok_response (j : json) : response :=
  {| status_code := 200; body := Some j |}.

Definition not_found : response := {| status_code := 404; body := None |}.

Definition repo := "https://hg.mozilla.org/mozilla-central".
Definition node := "e0cb209d9f3f307826944eae2d552b5a5bbe83e4".

(** A server holding one changeset and bug 1447193 with the given
    attachments and history; every other address is a 404. *)
Definition sample_world (bugs : list Z) (commit : json)
    (attachments bug_history : list json) : world :=
  {| parse_bugs := fun _ => bugs;
     server := fun url =>
       if String.eqb url (repo ++ "/json-rev/" ++ node) then
         Ok (ok_response commit)
       else if String.eqb url
            "https://bugzilla.mozilla.org/rest/bug/1447193/attachment?exclude_fields=data"
       then
         Ok (ok_response
               (JObj [("bugs", JObj [("1447193", JList attachments)]);
                      ("attachments", JObj [])]))
       else if String.eqb url
            "https://bugzilla.mozilla.org/rest/bug/1447193/history"
       then
         Ok (ok_response
               (JObj [("bugs",
                       JList [JObj [("id", JInt 1447193);
                                    ("alias", JList []);
                                    ("history", JList bug_history)]])]))
       else Ok not_found |}.

Definition approval_history : list json :=
  [group_json "reviewer@example.com"
     [change_json "status" "ASSIGNED";
      change_json "flagtypes.name" "feedback+,review+"]].

Definition approval_history_typed : list (list change) :=
  [[ {| field_name := "status"; added := "ASSIGNED" |};
     {| field_name := "flagtypes.name"; added := "feedback+,review+" |} ]].

Definition backout_summary : string :=
  "Backed out changeset b5065c61bbd7 (bug 1448077) for xpcshell failures"
  ++ newline
  ++ "Differential Revision: https://phabricator.services.mozilla.com/D861".

End Examples.

(* ################################################################# *)
(** ** tool.py *)

Module Tool.
Import Text Py Telemetry.

(** What the command writes to standard output. *)
Inductive out :=
| Print (line : string)          (* print(line) *)
| PPrint (value : json).         (* pprint.pprint(value) *)

(** How the command ends: it returns, [sys.exit(code)] is called, or an
    exception leaves it uncaught. *)
Inductive outcome :=
| Returned
| Exited (code : Z)
| Uncaught (e : exn).

(** Dump the commit telemetry JSON for the given mercurial changeset ID.
    Only [NoSuchChangeset] is handled; the result is the outcome, the
    output and the requests made. *)
Definition dump_telemetry (W : world) (debug : bool)
    (target_repo node_id : string) (l : log) : outcome * list out * log :=
  let shown :=
    if debug then [Print ("Checking repo " ++ target_repo)] else [] in
  match payload_for_changeset W node_id target_repo l with
  | (Ok ping, l') => (Returned, (shown ++ [PPrint ping])%list, l')
  | (Raise (NoSuchChangeset _), l') =>
      (Exited 1,
       (shown ++
        [Print ("Error: changeset " ++ node_id
                ++ " does not exist in repository " ++ target_repo)])%list,
       l')
  | (Raise e, l') => (Uncaught e, shown, l')
  end.

End Tool.

(* ################################################################# *)
(** ** Notions used to state what the code does *)

Module Notions.
Import Text Re Py Telemetry Shape.

(** The three addresses the module requests. *)
Definition attachments_url (bug_id : Z) : string :=
  BMO_API_URL ++ "/bug/" ++ str_of_int bug_id
  ++ "/attachment?exclude_fields=data".

Definition history_url (bug_id : Z) : string :=
  BMO_API_URL ++ "/bug/" ++ str_of_int bug_id ++ "/history".

Definition changeset_url (repo_url changesetid : string) : string :=
  repo_url ++ "/json-rev/" ++ changesetid.

(** [t] stands in [s] as a whole comma-separated piece: it starts at the
    start of [s] or right after a comma, and ends at the end of [s] or right
    before a comma. *)
Definition delimited (t s : string) : Prop :=
  exists pre post,
    s = pre ++ t ++ post /\
    (pre = "" \/ exists p, pre = p ++ ",") /\
    (post = "" \/ exists q, post = "," ++ q).

(** An exception of Python or of [requests], not the module's own. *)
Definition foreign (e : exn) : Prop :=
  match e with
  | NoSuchChangeset _ => False
  | _ => True
  end.

(** [requests.get] raises exceptions of its own only, whatever they are. *)
Definition network (W : world) : Prop :=
  forall url e, server W url = Raise e -> foreign e.

(** The status is one [raise_for_status] lets through. *)
Definition passes (r : response) : Prop :=
  (status_code r < 400 \/ 600 <= status_code r)%Z.

(** The classification of a fetched bug with well-formed records. *)
Definition decision (atts : list attachment) (h : list (list change))
  : ReviewSystem :=
  if existsb mozreview_request atts then mozreview
  else if existsb strict_patch atts && existsb (existsb approval) h then bmo
  else unknown.

(** What may follow a piece: nothing, or a separator. *)
Definition boundary (sep : ascii) (post : string) : Prop :=
  post = "" \/ exists q, post = String sep q.

(** [t] holds no separator. *)
Definition free_of (sep : ascii) (t : string) : Prop :=
  forallb (fun c => negb (Ascii.eqb c sep)) (chars t) = true.

(** The pattern has no case-sensitive literal and no set. *)
Inductive caseless : regex -> Prop :=
| CL_Void : caseless Void
| CL_Eps : caseless Eps
| CL_Bos : caseless Bos
| CL_LitI c : caseless (LitI c)
| CL_Cat r1 r2 : caseless r1 -> caseless r2 -> caseless (Cat r1 r2)
| CL_Alt r1 r2 : caseless r1 -> caseless r2 -> caseless (Alt r1 r2)
| CL_Star r : caseless r -> caseless (Star r).

(** A result that raises, if at all, a foreign exception. *)
Definition tame {A} (r : result A) : Prop :=
  forall e, r = Raise e -> foreign e.

(** What [dump_telemetry] prints first. *)
Definition shown (debug : bool) (target_repo : string) : list Tool.out :=
  if debug then [Tool.Print ("Checking repo " ++ target_repo)] else [].

(** The line [dump_telemetry] prints for a missing changeset. *)
Definition missing_line (node_id target_repo : string) : Tool.out :=
  Tool.Print ("Error: changeset " ++ node_id
              ++ " does not exist in repository " ++ target_repo).

End Notions.

(* ################################################################# *)
(** ** More sample servers *)

Module Samples.
Import Text Py Telemetry Shape Examples Notions.

(** A tracker that serves the attachments of bug 1447193 and answers 503
    to everything else, its history included. *)
Definition history_down (attachments : list json) : world :=
  {| parse_bugs := fun _ => [1447193%Z];
     server := fun url =>
       if String.eqb url (attachments_url 1447193) then
         Ok (ok_response
               (JObj [("bugs", JObj [("1447193", JList attachments)])]))
       else Ok {| status_code := 503; body := None |} |}.

End Samples.

(* ################################################################# *)
(** ** The matcher computes the relation *)

Module ReFacts.
Import Text Re.

Ltac inv H := inversion H; subst; clear H.

Lemma nullable_sound b r : nullable b r = true -> matches b r [].
Proof.
  induction r; simpl; intro H; try discriminate.
  - constructor.
  - subst b. constructor.
  - apply andb_true_iff in H as [H1 H2].
    change (@nil ascii) with (@nil ascii ++ [])%list.
    constructor; [auto|]. simpl. rewrite andb_true_r. auto.
  - apply orb_true_iff in H as [H|H]; [apply M_AltL | apply M_AltR]; auto.
  - constructor.
Qed.

Lemma nullable_complete b r w : matches b r w -> w = [] -> nullable b r = true.
Proof.
  induction 1; simpl; intro E; try discriminate; auto.
  - apply app_eq_nil in E as [-> ->]. simpl in *.
    rewrite andb_true_r in IHmatches2. rewrite IHmatches1, IHmatches2; auto.
  - rewrite IHmatches; auto.
  - rewrite IHmatches; auto using orb_true_r.
Qed.

Lemma nullable_matches b r : nullable b r = true <-> matches b r [].
Proof.
  split; [apply nullable_sound | intro H; eapply nullable_complete; eauto].
Qed.

Lemma deriv_sound r : forall b x w,
  matches false (deriv b x r) w -> matches b r (x :: w).
Proof.
  induction r; intros b x w H; simpl in H.
  - inv H.
  - inv H.
  - inv H.
  - destruct (Ascii.eqb x c) eqn:E; inv H.
    apply Ascii.eqb_eq in E. subst. constructor.
  - destruct (Ascii.eqb (lower x) (lower c)) eqn:E; inv H.
    apply Ascii.eqb_eq in E. constructor. exact E.
  - destruct (in_set items x) eqn:E; inv H. constructor. exact E.
  - inv H.
    + match goal with H : matches _ (Cat _ _) _ |- _ => inv H end.
      simpl in *.
      change (x :: w1 ++ w2)%list with ((x :: w1) ++ w2)%list.
      constructor; [apply IHr1; assumption|].
      simpl. rewrite andb_false_r. assumption.
    + destruct (nullable b r1) eqn:N;
        [|match goal with H : matches _ Void _ |- _ => inv H end].
      change (x :: w) with ([] ++ x :: w)%list.
      constructor; [apply nullable_sound; assumption|].
      simpl. rewrite andb_true_r. apply IHr2. assumption.
  - inv H; [apply M_AltL | apply M_AltR]; auto.
  - inv H. simpl in *. constructor; auto.
Qed.

Lemma deriv_complete r : forall b x w,
  matches b r (x :: w) -> matches false (deriv b x r) w.
Proof.
  induction r; intros b x w H; simpl.
  - inv H.
  - inv H.
  - inv H.
  - inv H. rewrite Ascii.eqb_refl. constructor.
  - inv H. match goal with E : lower _ = lower _ |- _ => rewrite E end.
    rewrite Ascii.eqb_refl. constructor.
  - inv H. match goal with E : in_set _ _ = true |- _ => rewrite E end.
    constructor.
  - remember (x :: w) as xw eqn:Exw. inv H.
    match goal with
    | H1 : matches b r1 ?u, H2 : matches _ r2 ?v |- _ =>
        destruct u as [|y u]; simpl in *
    end.
    + subst. rewrite andb_true_r in *.
      apply M_AltR.
      match goal with H1 : matches b r1 [] |- _ =>
        rewrite (proj2 (nullable_matches _ _) H1) end.
      apply IHr2. assumption.
    + match goal with E : (_ :: _ = _ :: _)%list |- _ => inv E end.
      rewrite andb_false_r in *.
      apply M_AltL. constructor; [apply IHr1; assumption|]. assumption.
  - inv H; [apply M_AltL | apply M_AltR]; auto.
  - inv H. constructor; [apply IHr; assumption|]. assumption.
Qed.

Lemma match_prefix_spec s : forall b r,
  match_prefix b r s = true <->
  exists w rest, s = (w ++ rest)%list /\ matches b r w.
Proof.
  induction s as [|x s IH]; intros b r; simpl.
  - rewrite orb_false_r, nullable_matches. split.
    + intro H. exists [], []. auto.
    + intros (w & rest & E & H). symmetry in E.
      apply app_eq_nil in E as [-> _]. exact H.
  - rewrite orb_true_iff, IH, nullable_matches. split.
    + intros [H | (w & rest & -> & H)].
      * exists [], (x :: s). auto.
      * exists (x :: w), rest. split; [reflexivity|].
        apply deriv_sound. exact H.
    + intros ([|y w] & rest & E & H); [left; exact H|].
      right. simpl in E. inv E. exists w, rest. split; [reflexivity|].
      apply deriv_complete. exact H.
Qed.

Lemma search_from_spec s : forall b r,
  search_from b r s = true <->
  exists pre w post,
    s = (pre ++ w ++ post)%list /\ matches (b && is_nil pre) r w.
Proof.
  induction s as [|x s IH]; intros b r; cbn [search_from].
  - rewrite orb_false_r, match_prefix_spec. split.
    + intros (w & rest & E & H). exists [], w, rest. simpl.
      rewrite andb_true_r. auto.
    + intros (pre & w & post & E & H). symmetry in E.
      apply app_eq_nil in E as [-> E]. simpl in H.
      rewrite andb_true_r in H. exists w, post. auto.
  - rewrite orb_true_iff, IH, match_prefix_spec. split.
    + intros [(w & rest & E & H) | (pre & w & post & -> & H)].
      * exists [], w, rest. simpl. rewrite andb_true_r. auto.
      * exists (x :: pre), w, post. simpl. rewrite andb_false_r. auto.
    + intros ([|y pre] & w & post & E & H); simpl in *.
      * left. rewrite andb_true_r in H. exists w, post. auto.
      * right. inv E. rewrite andb_false_r in H.
        exists pre, w, post. auto.
Qed.

(** *** The shapes the two patterns are built from *)

Lemma matches_lits_Lit l : forall b w,
  matches b (lits Lit l) w <-> w = l.
Proof.
  induction l as [|c l IH]; intros b w; simpl.
  - split; intro H; [inv H; reflexivity | subst; constructor].
  - split; intro H.
    + inv H.
      match goal with H : matches _ (Lit _) _ |- _ => inv H end.
      simpl. f_equal. eapply IH. eassumption.
    + subst. change (c :: l) with ([c] ++ l)%list.
      constructor; [constructor | apply IH; reflexivity].
Qed.

Lemma matches_lits_LitI l : forall b w,
  matches b (lits LitI l) w <-> map lower w = map lower l.
Proof.
  induction l as [|c l IH]; intros b w; simpl.
  - split; intro H.
    + inv H. reflexivity.
    + destruct w; [constructor | discriminate].
  - split; intro H.
    + inv H.
      match goal with H : matches _ (LitI _) _ |- _ => inv H end.
      simpl. f_equal; [assumption|]. eapply IH. eassumption.
    + destruct w as [|x w]; [discriminate|]. simpl in H. inv H.
      change (x :: w) with ([x] ++ w)%list.
      constructor; [constructor; assumption | apply IH; assumption].
Qed.

Lemma matches_star_set_sound items : forall b r w,
  matches b r w -> r = Star (OneOf items) -> forallb (in_set items) w = true.
Proof.
  induction 1; intro E; try discriminate; [reflexivity|].
  inv E.
  match goal with H : matches _ (OneOf _) _ |- _ => inv H end.
  simpl. rewrite IHmatches2 by reflexivity.
  match goal with H : in_set _ _ = true |- _ => rewrite H end. reflexivity.
Qed.

Lemma matches_star_set items w : forall b,
  matches b (Star (OneOf items)) w <-> forallb (in_set items) w = true.
Proof.
  intro b. split.
  - intro H. eapply matches_star_set_sound; eauto.
  - revert b. induction w as [|x w IH]; intros b H; [constructor|].
    simpl in H. apply andb_true_iff in H as [Hx Hw].
    change (x :: w) with (x :: [] ++ w)%list.
    constructor; [constructor; assumption | apply IH; assumption].
Qed.

Lemma matches_at_least_set items n : forall b w,
  matches b (at_least n (OneOf items)) w <->
  n <= List.length w /\ forallb (in_set items) w = true.
Proof.
  induction n as [|n IH]; intros b w; simpl.
  - rewrite matches_star_set. split; [intro; split; [lia | assumption] | tauto].
  - split.
    + intro H. inv H.
      match goal with H : matches _ (OneOf _) _ |- _ => inv H end.
      match goal with H : matches _ (at_least _ _) _ |- _ =>
        apply IH in H; destruct H as [Hn Hw] end.
      simpl. split; [lia|].
      match goal with H : in_set _ _ = true |- _ => rewrite H end. assumption.
    + intros [Hn Hw]. destruct w as [|x w]; simpl in *; [lia|].
      apply andb_true_iff in Hw as [Hx Hw].
      change (x :: w) with ([x] ++ w)%list.
      constructor; [constructor; assumption|].
      apply IH. split; [lia | assumption].
Qed.

Lemma matches_Bos_Cat r f w :
  matches f (Cat Bos r) w <-> f = true /\ matches true r w.
Proof.
  split.
  - intro H. inv H.
    match goal with H : matches _ Bos _ |- _ => inv H end.
    simpl in *. auto.
  - intros [-> H]. change w with ([] ++ w)%list.
    constructor; [constructor | exact H].
Qed.

Lemma matches_Cat b r1 r2 w :
  matches b (Cat r1 r2) w <->
  exists w1 w2, w = (w1 ++ w2)%list /\ matches b r1 w1 /\
                matches (b && is_nil w1) r2 w2.
Proof.
  split.
  - intro H. inv H. eauto.
  - intros (w1 & w2 & -> & H1 & H2). constructor; assumption.
Qed.

Lemma chars_app a : forall b, chars (a ++ b) = (chars a ++ chars b)%list.
Proof.
  induction a as [|c a IH]; intro b; simpl; [reflexivity|].
  unfold chars in *. simpl. rewrite IH. reflexivity.
Qed.

Lemma text_app a : forall b, text (a ++ b)%list = text a ++ text b.
Proof.
  induction a as [|c a IH]; intro b; simpl; [reflexivity|].
  unfold text in *. simpl. rewrite IH. reflexivity.
Qed.

Lemma text_chars s : text (chars s) = s.
Proof. apply string_of_list_ascii_of_string. Qed.

Lemma chars_text l : chars (text l) = l.
Proof. apply list_ascii_of_string_of_list_ascii. Qed.

Lemma chars_length s : List.length (chars s) = String.length s.
Proof.
  induction s as [|c s IH]; simpl; [reflexivity|].
  unfold chars in *. simpl. rewrite IH. reflexivity.
Qed.

End ReFacts.

(* ################################################################# *)
(** ** What the marker detectors and the classifiers compute *)

Module TelemetryFacts.
Import Text Re Py Telemetry Shape ReFacts.

Lemma forallb_pointwise {A} (f g : A -> bool) l :
  (forall x, f x = g x) -> forallb f l = forallb g l.
Proof.
  intro E. induction l as [|x l IH]; simpl; [reflexivity|].
  rewrite E, IH. reflexivity.
Qed.

Lemma in_set_address x :
  in_set [IWord; IChr ":"; IChr "/"; IChr "."] x = address_char x.
Proof.
  unfold in_set, address_char. simpl. rewrite orb_false_r.
  rewrite !orb_assoc. reflexivity.
Qed.

Lemma in_set_digit x : in_set [IRange "0" "9"] x = is_digit x.
Proof.
  unfold in_set, is_digit. simpl. rewrite orb_false_r. reflexivity.
Qed.

(** The backout pattern matches exactly the summaries that start with the
    phrase, up to case. *)
Lemma search_backout s :
  search BACKOUT_RE s = true <-> starts_with_backout s.
Proof.
  unfold search, BACKOUT_RE, starts_with_backout.
  rewrite search_from_spec. split.
  - intros (pre & w & post & E & H).
    apply matches_Bos_Cat in H as [F H].
    destruct pre; [|discriminate]. simpl in E.
    apply matches_lits_LitI in H.
    exists (text w), (text post). split.
    + rewrite <- text_app, <- E, text_chars. reflexivity.
    + unfold lowercase. rewrite chars_text, H. reflexivity.
  - intros (p & rest & -> & H).
    exists [], (chars p), (chars rest). split; [apply chars_app|].
    apply matches_Bos_Cat. split; [reflexivity|].
    apply matches_lits_LitI.
    unfold lowercase in H. apply (f_equal chars) in H.
    rewrite chars_text in H. rewrite H. reflexivity.
Qed.

(** The Phabricator pattern matches exactly the summaries that hold a
    revision marker. *)
Lemma search_phab s :
  search PHABRICATOR_COMMIT_RE s = true <-> has_revision_marker s.
Proof.
  unfold search, PHABRICATOR_COMMIT_RE, has_revision_marker.
  rewrite search_from_spec. split.
  - intros (pre & w & post & E & H).
    apply matches_Cat in H as (w1 & w2 & -> & H1 & H).
    apply matches_lits_Lit in H1. subst w1.
    apply matches_Cat in H as (addr & w3 & -> & Ha & H).
    apply matches_star_set in Ha.
    apply matches_Cat in H as (d & digits & -> & Hd & H).
    inv Hd. apply matches_at_least_set in H as [Hn Hds].
    exists (text pre), (text addr), (text digits), (text post).
    rewrite !chars_text. repeat split.
    + rewrite <- !app_assoc in E.
      rewrite <- (text_chars s), E, !text_app, text_chars. reflexivity.
    + rewrite <- (forallb_pointwise _ _ addr in_set_address). exact Ha.
    + rewrite <- chars_length, chars_text. exact Hn.
    + rewrite <- (forallb_pointwise _ _ digits in_set_digit). exact Hds.
  - intros (pre & addr & digits & post & -> & Ha & Hn & Hds).
    exists (chars pre),
      (chars "Differential Revision: " ++ chars addr ++ ["D"%char]
       ++ chars digits)%list,
      (chars post).
    split.
    + rewrite !chars_app, <- !app_assoc. reflexivity.
    + apply matches_Cat. eexists _, _. split; [reflexivity|].
      split; [apply matches_lits_Lit; reflexivity|].
      apply matches_Cat. eexists _, _. split; [reflexivity|].
      split.
      { apply matches_star_set.
        rewrite (forallb_pointwise _ _ _ in_set_address). exact Ha. }
      apply matches_Cat. eexists _, _. split; [reflexivity|].
      split; [constructor|].
      apply matches_at_least_set. split.
      { rewrite chars_length. exact Hn. }
      rewrite (forallb_pointwise _ _ _ in_set_digit). exact Hds.
Qed.

(** *** Attachments *)

Lemma is_patch_typed j a :
  attachment_of j a -> is_patch j = Ok (patch_attachment a).
Proof.
  intros [Hflag Htype]. unfold is_patch, patch_attachment, strict_patch.
  rewrite Hflag. simpl.
  destruct (is_patch_flag a =? 1)%Z; [reflexivity|].
  rewrite Htype. reflexivity.
Qed.

Lemma strict_flag_typed j a :
  attachment_of j a ->
  (flag <-! getitem j "is_patch" ;; Ok (eq_int flag 1))%py
  = Ok (strict_patch a).
Proof. intros [Hflag _]. rewrite Hflag. reflexivity. Qed.

Lemma comprehension_typed keep p l atts :
  (forall j a, attachment_of j a -> keep j = Ok (p a)) ->
  Forall2 attachment_of l atts ->
  exists kept,
    comprehension keep l = Ok kept /\
    Forall2 attachment_of kept (filter p atts).
Proof.
  intro Hkeep. induction 1 as [|j a l atts Hja _ (kept & Ek & Hk)]; simpl.
  - exists []. split; [reflexivity | constructor].
  - rewrite (Hkeep _ _ Hja). simpl. rewrite Ek. simpl.
    destruct (p a); eexists; split; try reflexivity; auto.
Qed.

Lemma mozreview_loop_typed l atts :
  Forall2 attachment_of l atts ->
  mozreview_loop l = Ok (existsb mozreview_request atts).
Proof.
  induction 1 as [|j a l atts [_ Htype] _ IH]; simpl; [reflexivity|].
  rewrite Htype. simpl. unfold mozreview_request at 1.
  destruct (String.eqb (content_type a) ATTACHMENT_TYPE_MOZREVIEW);
    [reflexivity | exact IH].
Qed.

Lemma mozreview_request_is_patch a :
  mozreview_request a = true -> patch_attachment a = true.
Proof.
  unfold mozreview_request, patch_attachment. intro H. simpl.
  rewrite H. apply orb_true_r.
Qed.

Lemma existsb_mozreview_filter atts :
  existsb mozreview_request (filter patch_attachment atts)
  = existsb mozreview_request atts.
Proof.
  induction atts as [|a atts IH]; simpl; [reflexivity|].
  destruct (patch_attachment a) eqn:P; simpl; rewrite IH; [reflexivity|].
  destruct (mozreview_request a) eqn:Q; [|reflexivity].
  apply mozreview_request_is_patch in Q. congruence.
Qed.

Lemma filter_nil_existsb {A} (p : A -> bool) l :
  filter p l = [] <-> existsb p l = false.
Proof.
  induction l as [|x l IH]; simpl; [tauto|].
  destruct (p x); simpl; [split; discriminate | exact IH].
Qed.

(** On well-formed attachments the MozReview check only looks for the
    content type: the patch filter lets every such attachment through. *)
Lemma has_mozreview_markers_typed aj atts :
  attachments_of aj atts ->
  has_mozreview_markers aj = Ok (existsb mozreview_request atts).
Proof.
  intros (l & -> & H). unfold has_mozreview_markers. simpl.
  destruct (comprehension_typed is_patch patch_attachment is_patch_typed H)
    as (kept & -> & Hk).
  simpl. rewrite (mozreview_loop_typed Hk). f_equal.
  apply existsb_mozreview_filter.
Qed.

(** *** History *)

Lemma changes_loop_typed cs g :
  Forall2 change_of cs g -> changes_loop cs = Ok (existsb approval g).
Proof.
  induction 1 as [|j c cs g [Hname Hadded] _ IH]; [reflexivity|].
  cbn [changes_loop existsb]. rewrite Hname. cbn [rbind eq_str].
  unfold approval at 1.
  destruct (String.eqb (field_name c) "flagtypes.name");
    cbn [negb andb orb]; [|exact IH].
  rewrite Hadded. cbn [rbind split_comma].
  destruct (existsb (String.eqb "review+") (split "," (added c)));
    [reflexivity | exact IH].
Qed.

Lemma history_loop_typed l h :
  Forall2 group_of l h ->
  history_loop l = Ok (existsb (existsb approval) h).
Proof.
  induction 1 as [|j g l h (cs & Hcs & Hg) _ IH]; simpl; [reflexivity|].
  rewrite Hcs. simpl. rewrite (changes_loop_typed Hg). simpl.
  destruct (existsb approval g); [reflexivity | exact IH].
Qed.

(** The attachments only decide whether the history is read at all. *)
Lemma has_bmo_shape aj atts hj :
  attachments_of aj atts ->
  has_bmo_patch_review_markers aj hj =
  if existsb strict_patch atts
  then (groups <-! iter hj ;; history_loop groups)%py
  else Ok false.
Proof.
  intros (l & -> & H). unfold has_bmo_patch_review_markers. simpl.
  destruct (comprehension_typed _ strict_patch strict_flag_typed H)
    as (kept & -> & Hk).
  simpl. destruct (existsb strict_patch atts) eqn:Some_patch.
  - destruct kept as [|k kept]; [|reflexivity].
    destruct (filter strict_patch atts) eqn:F; [|inversion Hk].
    apply filter_nil_existsb in F. congruence.
  - apply filter_nil_existsb in Some_patch. rewrite Some_patch in Hk.
    inversion Hk. reflexivity.
Qed.

(** Without a raw patch the history is not even read. *)
Lemma has_bmo_no_patch aj atts hj :
  attachments_of aj atts ->
  existsb strict_patch atts = false ->
  has_bmo_patch_review_markers aj hj = Ok false.
Proof.
  intros Ha Hnone. rewrite (has_bmo_shape hj Ha), Hnone. reflexivity.
Qed.

Lemma has_bmo_typed aj atts hj h :
  attachments_of aj atts ->
  history_of hj h ->
  has_bmo_patch_review_markers aj hj
  = Ok (existsb strict_patch atts && existsb (existsb approval) h).
Proof.
  intros Ha (lh & -> & Hh). rewrite (has_bmo_shape _ Ha).
  destruct (existsb strict_patch atts); [|reflexivity].
  exact (history_loop_typed Hh).
Qed.

(** *** The resolver *)

(** Once the cheap checks are inconclusive and the bug is fetched, the
    classification is decided by the two tracker checks alone. *)
Lemma determine_resolved W revision_json s ps bug_id aj hj l :
  commit_of revision_json s ps ->
  List.length ps <= 1 ->
  search BACKOUT_RE s = false ->
  search PHABRICATOR_COMMIT_RE s = false ->
  pop (parse_bugs W s) = Ok bug_id ->
  tracker_serves W bug_id aj hj ->
  fst (determine_review_system W revision_json l) =
  (moz <-! has_mozreview_markers aj ;;
   if moz then Ok mozreview
   else
     rev <-! has_bmo_patch_review_markers aj hj ;;
     if rev then Ok bmo else Ok unknown)%py.
Proof.
  intros [Hdesc Hparents] Hlen Hback Hphab Hpop [Hatt Hhist].
  unfold determine_review_system, bind, lift, ret, has_merge_markers.
  rewrite Hdesc. simpl. rewrite Hback, Hparents. simpl.
  replace (1 <? List.length ps)%nat with false
    by (symmetry; apply Nat.ltb_ge; exact Hlen).
  rewrite Hphab, Hpop.
  destruct (Hatt l) as (l1 & ->). destruct (Hhist l1) as (l2 & ->).
  destruct (has_mozreview_markers aj) as [[|]|e]; simpl; try reflexivity.
  destruct (has_bmo_patch_review_markers aj hj) as [[|]|e]; reflexivity.
Qed.

(** *** GitHub requests *)

Lemma mozreview_request_relabel ct a :
  ct <> ATTACHMENT_TYPE_MOZREVIEW ->
  mozreview_request (relabel_github ct a) = mozreview_request a.
Proof.
  intro Hct. unfold relabel_github, mozreview_request.
  destruct (String.eqb (content_type a) ATTACHMENT_TYPE_GITHUB) eqn:G;
    [|reflexivity].
  apply String.eqb_eq in G. rewrite G. simpl content_type.
  apply String.eqb_neq in Hct. rewrite Hct. reflexivity.
Qed.

Lemma strict_patch_relabel ct a :
  strict_patch (relabel_github ct a) = strict_patch a.
Proof.
  unfold relabel_github, strict_patch.
  destruct (String.eqb (content_type a) ATTACHMENT_TYPE_GITHUB); reflexivity.
Qed.

Lemma existsb_map_pointwise {A} (p : A -> bool) (f : A -> A) l :
  (forall x, p (f x) = p x) -> existsb p (map f l) = existsb p l.
Proof.
  intro E. induction l as [|x l IH]; simpl; [reflexivity|].
  rewrite E, IH. reflexivity.
Qed.

Lemma github_relabel_checks ct atts aj aj' hj :
  ct <> ATTACHMENT_TYPE_MOZREVIEW ->
  attachments_of aj atts ->
  attachments_of aj' (map (relabel_github ct) atts) ->
  has_mozreview_markers aj' = has_mozreview_markers aj /\
  has_bmo_patch_review_markers aj' hj = has_bmo_patch_review_markers aj hj.
Proof.
  intros Hct Ha Ha'. split.
  - rewrite (has_mozreview_markers_typed Ha), (has_mozreview_markers_typed Ha').
    f_equal. apply existsb_map_pointwise. intro.
    apply mozreview_request_relabel. exact Hct.
  - rewrite (has_bmo_shape hj Ha), (has_bmo_shape hj Ha').
    rewrite (existsb_map_pointwise strict_patch (relabel_github ct) atts
               (strict_patch_relabel ct)).
    reflexivity.
Qed.

End TelemetryFacts.

(* ################################################################# *)
(** ** The properties of the specification *)

Import Text Re Py Telemetry Shape Examples ReFacts TelemetryFacts.

(** C1.  A commit with more than one parent is classified not-applicable,
    whatever its summary says; no request is made. *)
Theorem merge_commit_is_not_applicable W revision_json s ps l :
  commit_of revision_json s ps ->
  1 < List.length ps ->
  determine_review_system W revision_json l = (Ok not_applicable, l).
Proof.
  intros [Hdesc Hparents] Hlen.
  unfold determine_review_system, bind, lift, ret, has_merge_markers.
  rewrite Hdesc. simpl.
  destruct (search BACKOUT_RE s); [reflexivity|].
  rewrite Hparents. simpl.
  replace (1 <? List.length ps)%nat with true
    by (symmetry; apply Nat.ltb_lt; exact Hlen).
  reflexivity.
Qed.

Lemma merge_commit_is_not_applicable_witness :
  determine_review_system
    (sample_world [1447193%Z]
       (revision "Merge inbound to mozilla-central. a=merge" [parent1; parent2])
       [] [])
    (revision "Merge inbound to mozilla-central. a=merge" [parent1; parent2])
    []
  = (Ok not_applicable, []).
Proof.
  apply (@merge_commit_is_not_applicable _ _
           "Merge inbound to mozilla-central. a=merge"
           [JStr parent1; JStr parent2]).
  - split; reflexivity.
  - simpl. lia.
Defined.

(** C2.  A single-parent commit whose summary matches the backout pattern is
    classified not-applicable, also when the summary holds a Phabricator
    marker further on. *)
Theorem backout_commit_is_not_applicable W revision_json s ps l :
  commit_of revision_json s ps ->
  List.length ps = 1 ->
  has_backout_markers (JStr s) = Ok true ->
  determine_review_system W revision_json l = (Ok not_applicable, l).
Proof.
  intros [Hdesc _] _ Hback.
  unfold determine_review_system, bind, lift, ret.
  rewrite Hdesc, Hback. reflexivity.
Qed.

Lemma backout_commit_is_not_applicable_witness :
  has_phab_markers (JStr backout_summary) = Ok true /\
  determine_review_system
    (sample_world [1448077%Z] (revision backout_summary [parent1]) [] [])
    (revision backout_summary [parent1]) []
  = (Ok not_applicable, []).
Proof.
  split; [vm_compute; reflexivity|].
  apply (@backout_commit_is_not_applicable _ _ backout_summary [JStr parent1]).
  - split; reflexivity.
  - reflexivity.
  - vm_compute. reflexivity.
Defined.

(** C3, as the code has it.  [has_backout_markers] answers on every string,
    and answers true exactly when the summary starts at its first character
    with "backed out " up to case: leading whitespace is not skipped, and the
    phrase further on in the text does not count. *)
Theorem has_backout_markers_anchored s :
  exists b,
    has_backout_markers (JStr s) = Ok b /\
    (b = true <-> starts_with_backout s).
Proof.
  exists (search BACKOUT_RE s). split; [reflexivity|].
  apply search_backout.
Qed.

Lemma has_backout_markers_anchored_witness :
  has_backout_markers (JStr "BACKED OUT 4 changesets (bug 1448077)") = Ok true.
Proof.
  destruct (has_backout_markers_anchored
              "BACKED OUT 4 changesets (bug 1448077)") as (b & E & Hb).
  rewrite E. f_equal. apply Hb.
  exists "BACKED OUT ", "4 changesets (bug 1448077)".
  split; reflexivity.
Defined.

(** C3 as stated fails: a summary whose phrase is preceded only by
    whitespace is not recognised. *)
Lemma backout_after_whitespace_not_matched :
  forallb is_space (chars " ") = true /\
  lowercase "backed out " = "backed out " /\
  has_backout_markers (JStr (" " ++ "backed out " ++ "4 changesets"))
  = Ok false.
Proof. repeat split. Qed.

(** C4.  A single-parent commit whose summary holds a revision marker and
    does not match the backout pattern is classified phabricator; the
    summary "Differential Revision: https://x/D861" is one, and the token
    sent is "phabricator". *)
Theorem revision_marker_is_phabricator :
  (forall W revision_json s ps l,
      commit_of revision_json s ps ->
      List.length ps = 1 ->
      has_revision_marker s ->
      has_backout_markers (JStr s) = Ok false ->
      determine_review_system W revision_json l = (Ok phabricator, l)) /\
  (forall W revision_json ps l,
      commit_of revision_json "Differential Revision: https://x/D861" ps ->
      List.length ps = 1 ->
      determine_review_system W revision_json l = (Ok phabricator, l) /\
      value phabricator = "phabricator").
Proof.
  assert (General : forall W revision_json s ps l,
      commit_of revision_json s ps ->
      List.length ps = 1 ->
      has_revision_marker s ->
      has_backout_markers (JStr s) = Ok false ->
      determine_review_system W revision_json l = (Ok phabricator, l)).
  { intros W revision_json s ps l [Hdesc Hparents] Hlen Hmark Hback.
    apply search_phab in Hmark.
    unfold determine_review_system, bind, lift, ret, has_merge_markers.
    rewrite Hdesc, Hback, Hparents. simpl. rewrite Hlen, Hmark. reflexivity. }
  split; [exact General|].
  intros W revision_json ps l Hc Hlen. split; [|reflexivity].
  apply (General W revision_json _ ps l Hc Hlen); [|reflexivity].
  exists "", "https://x/", "861", "". repeat split. simpl. lia.
Qed.

Lemma revision_marker_is_phabricator_witness :
  determine_review_system
    (sample_world []
       (revision "Differential Revision: https://x/D861" [parent1]) [] [])
    (revision "Differential Revision: https://x/D861" [parent1]) []
  = (Ok phabricator, []).
Proof.
  apply (proj1 revision_marker_is_phabricator _ _
           "Differential Revision: https://x/D861" [JStr parent1]).
  - split; reflexivity.
  - reflexivity.
  - exists "", "https://x/", "861", "". repeat split. simpl. lia.
  - reflexivity.
Defined.

(** C5.  A single-parent commit that is no backout, carries no Phabricator
    marker and in whose summary the bug parser finds no bug is classified
    unknown, and the tracker is not asked: the request log is unchanged. *)
Theorem no_bug_reference_is_unknown W revision_json s ps l :
  commit_of revision_json s ps ->
  List.length ps = 1 ->
  has_backout_markers (JStr s) = Ok false ->
  has_phab_markers (JStr s) = Ok false ->
  parse_bugs W s = [] ->
  determine_review_system W revision_json l = (Ok unknown, l).
Proof.
  intros [Hdesc Hparents] Hlen Hback Hphab Hbugs.
  injection Hphab as Hphab.
  unfold determine_review_system, bind, lift, ret, has_merge_markers.
  rewrite Hdesc, Hback, Hparents. simpl. rewrite Hlen. simpl.
  rewrite Hphab, Hbugs. reflexivity.
Qed.

Lemma no_bug_reference_is_unknown_witness :
  determine_review_system
    (sample_world [] (revision "No bug - fix typo in README" [parent1]) [] [])
    (revision "No bug - fix typo in README" [parent1]) []
  = (Ok unknown, []).
Proof.
  apply (@no_bug_reference_is_unknown _ _
           "No bug - fix typo in README" [JStr parent1]).
  - split; reflexivity.
  - reflexivity.
  - reflexivity.
  - reflexivity.
  - reflexivity.
Defined.

(** C6.  When the bug of a single-parent commit without backout or
    Phabricator marker is fetched and one of its attachments has the
    MozReview content type and [is_patch] 1, the commit is classified
    mozreview; the history is arbitrary, so no approval flag is needed. *)
Theorem mozreview_attachment_is_mozreview
    W revision_json s ps bug_id aj atts hj a l :
  commit_of revision_json s ps ->
  List.length ps = 1 ->
  has_backout_markers (JStr s) = Ok false ->
  has_phab_markers (JStr s) = Ok false ->
  pop (parse_bugs W s) = Ok bug_id ->
  tracker_serves W bug_id aj hj ->
  attachments_of aj atts ->
  In a atts ->
  content_type a = ATTACHMENT_TYPE_MOZREVIEW ->
  is_patch_flag a = 1%Z ->
  fst (determine_review_system W revision_json l) = Ok mozreview.
Proof.
  intros Hc Hlen Hback Hphab Hpop Hserve Hatts Hin Htype _.
  injection Hback as Hback. injection Hphab as Hphab.
  assert (Hle : List.length ps <= 1) by lia.
  rewrite (determine_resolved l Hc Hle Hback Hphab Hpop Hserve).
  rewrite (has_mozreview_markers_typed Hatts).
  replace (existsb mozreview_request atts) with true; [reflexivity|].
  symmetry. apply existsb_exists. exists a. split; [assumption|].
  unfold mozreview_request. rewrite Htype. reflexivity.
Qed.

Lemma mozreview_attachment_is_mozreview_witness :
  fst (determine_review_system
         (sample_world [1447193%Z]
            (revision "Bug 1447193 - Add telemetry. r=smacleod" [parent1])
            [attachment_json 8960399 1 ATTACHMENT_TYPE_MOZREVIEW] [])
         (revision "Bug 1447193 - Add telemetry. r=smacleod" [parent1]) [])
  = Ok mozreview.
Proof.
  apply (@mozreview_attachment_is_mozreview _ _
           "Bug 1447193 - Add telemetry. r=smacleod" [JStr parent1]
           1447193%Z
           (JList [attachment_json 8960399 1 ATTACHMENT_TYPE_MOZREVIEW])
           [{| is_patch_flag := 1;
               content_type := ATTACHMENT_TYPE_MOZREVIEW |}]
           (JList [])
           {| is_patch_flag := 1; content_type := ATTACHMENT_TYPE_MOZREVIEW |}).
  - split; reflexivity.
  - reflexivity.
  - reflexivity.
  - reflexivity.
  - reflexivity.
  - split; intro l; eexists; reflexivity.
  - eexists. split; [reflexivity|].
    repeat constructor.
  - left. reflexivity.
  - reflexivity.
  - reflexivity.
Defined.

(** C7, as the code has it.  On well-formed attachments and history,
    [has_bmo_patch_review_markers] is true exactly when some attachment has
    the raw flag 1 and some change of some group names the flag field and
    adds the token [review+].  Without a raw patch it is false whatever the
    history holds, and the commit is then never classified bmo: it is
    mozreview when an attachment has the MozReview content type and unknown
    otherwise. *)
Theorem bmo_review_markers_spec aj atts :
  attachments_of aj atts ->
  (forall hj h,
      history_of hj h ->
      exists b,
        has_bmo_patch_review_markers aj hj = Ok b /\
        (b = true <->
         (exists a, In a atts /\ is_patch_flag a = 1%Z) /\
         (exists g c,
             In g h /\ In c g /\
             field_name c = "flagtypes.name" /\
             In "review+" (split "," (added c))))) /\
  ((forall a, In a atts -> is_patch_flag a <> 1%Z) ->
   forall hj,
     has_bmo_patch_review_markers aj hj = Ok false /\
     forall W revision_json s ps bug_id l,
       commit_of revision_json s ps ->
       List.length ps = 1 ->
       has_backout_markers (JStr s) = Ok false ->
       has_phab_markers (JStr s) = Ok false ->
       pop (parse_bugs W s) = Ok bug_id ->
       tracker_serves W bug_id aj hj ->
       fst (determine_review_system W revision_json l)
       = Ok (if existsb mozreview_request atts then mozreview else unknown)).
Proof.
  intro Hatts. split.
  - intros hj h Hhist. eexists. split; [apply (has_bmo_typed Hatts Hhist)|].
    rewrite andb_true_iff, !existsb_exists. split.
    + intros [(a & Ha & Hflag) (g & Hg & Hex)].
      apply existsb_exists in Hex as (c & Hc & Happ).
      unfold approval in Happ. apply andb_true_iff in Happ as [Hname Hadd].
      apply existsb_exists in Hadd as (t & Ht & Et).
      apply String.eqb_eq in Et. subst t.
      split; [exists a; split; [assumption | apply Z.eqb_eq; assumption]|].
      exists g, c. repeat split; try assumption.
      apply String.eqb_eq. assumption.
    + intros [(a & Ha & Hflag) (g & c & Hg & Hc & Hname & Hadd)]. split.
      * exists a. split; [assumption | apply Z.eqb_eq; assumption].
      * exists g. split; [assumption|].
        apply existsb_exists. exists c. split; [assumption|].
        unfold approval. apply andb_true_iff. split.
        { apply String.eqb_eq. assumption. }
        apply existsb_exists. exists "review+". split; [assumption|].
        apply String.eqb_refl.
  - intros Hnone hj.
    assert (Hstrict : existsb strict_patch atts = false).
    { destruct (existsb strict_patch atts) eqn:E; [|reflexivity].
      apply existsb_exists in E as (a & Ha & Hflag).
      apply Z.eqb_eq in Hflag. destruct (Hnone a Ha Hflag). }
    split; [apply (has_bmo_no_patch hj Hatts Hstrict)|].
    intros W revision_json s ps bug_id l Hc Hlen Hback Hphab Hpop Hserve.
    injection Hback as Hback. injection Hphab as Hphab.
    assert (Hle : List.length ps <= 1) by lia.
    rewrite (determine_resolved l Hc Hle Hback Hphab Hpop Hserve).
    rewrite (has_mozreview_markers_typed Hatts).
    rewrite (has_bmo_no_patch hj Hatts Hstrict).
    destruct (existsb mozreview_request atts); reflexivity.
Qed.

Lemma bmo_review_markers_spec_witness :
  has_bmo_patch_review_markers
    (JList [attachment_json 8960399 1 "text/plain"])
    (JList approval_history)
  = Ok true /\
  has_bmo_patch_review_markers
    (JList [attachment_json 8960400 0 ATTACHMENT_TYPE_GITHUB])
    (JList approval_history)
  = Ok false.
Proof.
  split.
  - assert (Hatts : attachments_of
                      (JList [attachment_json 8960399 1 "text/plain"])
                      [{| is_patch_flag := 1; content_type := "text/plain" |}]).
    { eexists. split; [reflexivity|]. repeat constructor. }
    destruct (proj1 (bmo_review_markers_spec Hatts)
                (JList approval_history) approval_history_typed)
      as (b & E & Hb).
    + eexists. split; [reflexivity|].
      repeat constructor. eexists. split; [reflexivity|].
      repeat constructor.
    + rewrite E. f_equal. apply Hb. split.
      * eexists. split; [left; reflexivity | reflexivity].
      * exists [ {| field_name := "status"; added := "ASSIGNED" |};
                 {| field_name := "flagtypes.name";
                    added := "feedback+,review+" |} ],
          {| field_name := "flagtypes.name"; added := "feedback+,review+" |}.
        repeat split.
        -- left. reflexivity.
        -- right. left. reflexivity.
        -- simpl. right. left. reflexivity.
  - assert (Hatts : attachments_of
                      (JList [attachment_json 8960400 0 ATTACHMENT_TYPE_GITHUB])
                      [{| is_patch_flag := 0;
                          content_type := ATTACHMENT_TYPE_GITHUB |}]).
    { eexists. split; [reflexivity|]. repeat constructor. }
    apply (proj2 (bmo_review_markers_spec Hatts)).
    intros a [<- | []]. discriminate.
Defined.

(** C7 as stated fails on its last part: a bug whose only attachment is a
    MozReview request with [is_patch] 0 has no raw patch, the check is false,
    and yet the commit is classified mozreview, not unknown. *)
Lemma no_raw_patch_yet_mozreview :
  eq_int (JInt 0) 1 = false /\
  has_bmo_patch_review_markers
    (JList [attachment_json 8960399 0 ATTACHMENT_TYPE_MOZREVIEW])
    (JList approval_history)
  = Ok false /\
  fst (determine_review_system
         (sample_world [1447193%Z]
            (revision "Bug 1447193 - Add telemetry. r=smacleod" [parent1])
            [attachment_json 8960399 0 ATTACHMENT_TYPE_MOZREVIEW]
            approval_history)
         (revision "Bug 1447193 - Add telemetry. r=smacleod" [parent1]) [])
  = Ok mozreview.
Proof. repeat split. Qed.

(** C8.  [payload_for_changeset] asks the repository once.  On a 404 it
    raises [NoSuchChangeset] and yields no record; when the fetch succeeds
    and the resolver returns a classification, it returns the record made of
    the changeset id and the classification's token; and any record it
    returns has exactly these two entries. *)
Theorem payload_for_changeset_spec W changesetid repo_url l :
  let url := repo_url ++ "/json-rev/" ++ changesetid in
  (forall r,
      server W url = Ok r ->
      status_code r = 404%Z ->
      exists msg,
        payload_for_changeset W changesetid repo_url l
        = (Raise (NoSuchChangeset msg), (l ++ [url])%list)) /\
  (forall r j system l',
      server W url = Ok r ->
      raise_for_status r = Ok tt ->
      body r = Some j ->
      determine_review_system W j (l ++ [url])%list = (Ok system, l') ->
      payload_for_changeset W changesetid repo_url l
      = (Ok (telemetry_record changesetid system), l')) /\
  (forall p l',
      payload_for_changeset W changesetid repo_url l = (Ok p, l') ->
      exists system,
        p = JObj [("changesetID", JStr changesetid);
                  ("reviewSystemUsed", JStr (value system))]).
Proof.
  intro url. unfold payload_for_changeset, bind, lift, ret, raise, requests_get.
  fold url. repeat split.
  - intros r Hr H404. rewrite Hr, H404. simpl. eexists. reflexivity.
  - intros r j system l' Hr Hstatus Hbody Hdet. rewrite Hr.
    assert (H404 : (status_code r =? 404)%Z = false).
    { unfold raise_for_status in Hstatus.
      destruct (status_code r =? 404)%Z eqn:E; [|reflexivity].
      apply Z.eqb_eq in E. rewrite E in Hstatus. discriminate. }
    rewrite H404, Hstatus. unfold response_json. rewrite Hbody, Hdet.
    reflexivity.
  - intros p l'. destruct (server W url) as [r|e]; [|discriminate].
    destruct (status_code r =? 404)%Z; [discriminate|].
    destruct (raise_for_status r); [|discriminate].
    destruct (response_json r) as [j|e]; [|discriminate].
    destruct (determine_review_system W j (l ++ [url])%list)
      as [[system|e] l2]; [|discriminate].
    intro H. injection H as <- _. exists system. reflexivity.
Qed.

Lemma payload_for_changeset_spec_witness :
  (exists msg,
      payload_for_changeset
        (sample_world [] (revision "Differential Revision: https://x/D861"
                            [parent1]) [] [])
        "0000000000000000000000000000000000000000" repo []
      = (Raise (NoSuchChangeset msg),
         [repo ++ "/json-rev/0000000000000000000000000000000000000000"])) /\
  payload_for_changeset
    (sample_world [] (revision "Differential Revision: https://x/D861"
                        [parent1]) [] [])
    node repo []
  = (Ok (JObj [("changesetID", JStr node);
               ("reviewSystemUsed", JStr "phabricator")]),
     [repo ++ "/json-rev/" ++ node]).
Proof.
  split.
  - apply (proj1 (payload_for_changeset_spec
                    (sample_world [] (revision
                       "Differential Revision: https://x/D861" [parent1])
                       [] [])
                    "0000000000000000000000000000000000000000" repo [])
             not_found); reflexivity.
  - apply (proj1 (proj2 (payload_for_changeset_spec
                    (sample_world [] (revision
                       "Differential Revision: https://x/D861" [parent1])
                       [] [])
                    node repo []))
             (ok_response (revision "Differential Revision: https://x/D861"
                             [parent1]))
             (revision "Differential Revision: https://x/D861" [parent1])
             phabricator); reflexivity.
Defined.

(** C9, as the code has it.  On an empty attachment list
    [has_mozreview_markers] returns false without raising; an absent list
    ([None]) is not accepted: iterating it raises [TypeError]. *)
Theorem has_mozreview_markers_empty_or_absent :
  has_mozreview_markers (JList []) = Ok false /\
  has_mozreview_markers JNull = Raise TypeError.
Proof. split; reflexivity. Qed.

(** C9 as stated fails: the absent list does not yield false. *)
Lemma has_mozreview_markers_absent_raises :
  has_mozreview_markers JNull <> Ok false.
Proof. discriminate. Qed.

(** C10.  Every run of [determine_review_system] either raises or returns
    one of the five members of [ReviewSystem], whose tokens are the five of
    the enumeration.  The GitHub content type makes an attachment a patch
    attachment for [is_patch], and that is all it does: relabelling the
    GitHub requests of a bug with any content type other than MozReview's
    changes neither tracker check and so not the classification. *)
Theorem classification_is_closed :
  (forall W revision_json l,
      (exists system,
          fst (determine_review_system W revision_json l) = Ok system /\
          In system [phabricator; mozreview; bmo; unknown; not_applicable] /\
          In (value system) review_system_tokens) \/
      (exists e, fst (determine_review_system W revision_json l) = Raise e)) /\
  (forall j a,
      attachment_of j a ->
      content_type a = ATTACHMENT_TYPE_GITHUB ->
      is_patch j = Ok true) /\
  (forall ct atts aj aj' hj,
      ct <> ATTACHMENT_TYPE_MOZREVIEW ->
      attachments_of aj atts ->
      attachments_of aj' (map (relabel_github ct) atts) ->
      has_mozreview_markers aj' = has_mozreview_markers aj /\
      has_bmo_patch_review_markers aj' hj
      = has_bmo_patch_review_markers aj hj /\
      forall W W' revision_json s ps bug_id bug_id' l l',
        commit_of revision_json s ps ->
        List.length ps <= 1 ->
        has_backout_markers (JStr s) = Ok false ->
        has_phab_markers (JStr s) = Ok false ->
        pop (parse_bugs W s) = Ok bug_id ->
        pop (parse_bugs W' s) = Ok bug_id' ->
        tracker_serves W bug_id aj hj ->
        tracker_serves W' bug_id' aj' hj ->
        fst (determine_review_system W' revision_json l')
        = fst (determine_review_system W revision_json l)).
Proof.
  repeat split.
  - intros W revision_json l.
    destruct (fst (determine_review_system W revision_json l))
      as [system|e]; [left | right; eexists; reflexivity].
    exists system. split; [reflexivity|].
    destruct system; simpl; auto 10.
  - intros j a Hja Htype. rewrite (is_patch_typed Hja).
    unfold patch_attachment. rewrite Htype. simpl.
    rewrite orb_true_r. reflexivity.
  - eapply github_relabel_checks; eauto.
  - eapply github_relabel_checks; eauto.
  - intros W W' revision_json s ps bug_id bug_id' l l'
      Hc Hle Hback Hphab Hpop Hpop' Hserve Hserve'.
    injection Hback as Hback. injection Hphab as Hphab.
    rewrite (determine_resolved l Hc Hle Hback Hphab Hpop Hserve).
    rewrite (determine_resolved l' Hc Hle Hback Hphab Hpop' Hserve').
    match goal with
    | Hct : _ <> _, Ha : attachments_of _ _, Ha' : attachments_of _ _ |- _ =>
        destruct (github_relabel_checks hj Hct Ha Ha') as [-> ->]
    end.
    reflexivity.
Qed.

Lemma classification_is_closed_witness :
  is_patch (attachment_json 8960399 0 ATTACHMENT_TYPE_GITHUB) = Ok true /\
  has_mozreview_markers (JList [attachment_json 8960399 0 "text/plain"])
  = has_mozreview_markers
      (JList [attachment_json 8960399 0 ATTACHMENT_TYPE_GITHUB]).
Proof.
  split.
  - apply (proj1 (proj2 classification_is_closed)
             (attachment_json 8960399 0 ATTACHMENT_TYPE_GITHUB)
             {| is_patch_flag := 0; content_type := ATTACHMENT_TYPE_GITHUB |}).
    + split; reflexivity.
    + reflexivity.
  - apply (proj2 (proj2 classification_is_closed) "text/plain"
             [{| is_patch_flag := 0; content_type := ATTACHMENT_TYPE_GITHUB |}]
             (JList [attachment_json 8960399 0 ATTACHMENT_TYPE_GITHUB])
             (JList [attachment_json 8960399 0 "text/plain"])
             JNull).
    + discriminate.
    + eexists. split; [reflexivity|]. repeat constructor.
    + eexists. split; [reflexivity|]. repeat constructor.
Defined.

(* ################################################################# *)
(** ** Further properties of the code *)

Import Tool Notions.

(** *** Strings *)

Lemma append_assoc (a b c : string) : (a ++ b) ++ c = a ++ b ++ c.
Proof.
  induction a as [|x a IH]; simpl; [reflexivity|]. rewrite IH. reflexivity.
Qed.

Lemma append_nil_r (a : string) : a ++ "" = a.
Proof.
  induction a as [|x a IH]; simpl; [reflexivity|]. rewrite IH. reflexivity.
Qed.

Lemma chars_inj a b : chars a = chars b -> a = b.
Proof.
  intro E. rewrite <- (text_chars a), <- (text_chars b), E. reflexivity.
Qed.

Lemma append_inv_head (a b c : string) : a ++ b = a ++ c -> b = c.
Proof.
  induction a as [|x a IH]; simpl; intro E; [exact E|].
  injection E as E. auto.
Qed.

Lemma append_inv_tail (a b c : string) : a ++ c = b ++ c -> a = b.
Proof.
  intro E. apply chars_inj. apply (f_equal chars) in E.
  rewrite !chars_app in E. eapply app_inv_tail. exact E.
Qed.

Lemma lower_idempotent x : lower (lower x) = lower x.
Proof. destruct x as [[] [] [] [] [] [] [] []]; reflexivity. Qed.

Lemma chars_lowercase s : chars (lowercase s) = map lower (chars s).
Proof. unfold lowercase. apply chars_text. Qed.

(** *** Patterns without case-sensitive parts *)

Lemma caseless_deriv b x r : caseless r -> caseless (deriv b x r).
Proof.
  induction 1; simpl; try constructor; auto.
  - destruct (Ascii.eqb (lower x) (lower c)); constructor.
  - constructor; auto.
  - destruct (nullable b r1); [auto | constructor].
  - constructor. assumption.
Qed.

Lemma deriv_lower b x r : caseless r -> deriv b (lower x) r = deriv b x r.
Proof.
  induction 1; simpl; try reflexivity.
  - rewrite lower_idempotent. reflexivity.
  - rewrite IHcaseless1, IHcaseless2. reflexivity.
  - rewrite IHcaseless1, IHcaseless2. reflexivity.
  - rewrite IHcaseless. reflexivity.
Qed.

Lemma match_prefix_lower l : forall b r,
  caseless r -> match_prefix b r (map lower l) = match_prefix b r l.
Proof.
  induction l as [|x l IH]; intros b r Hr; simpl; [reflexivity|].
  rewrite (deriv_lower b x Hr), IH by (apply caseless_deriv; exact Hr).
  reflexivity.
Qed.

Lemma search_from_lower l : forall b r,
  caseless r -> search_from b r (map lower l) = search_from b r l.
Proof.
  induction l as [|x l IH]; intros b r Hr; cbn [search_from map].
  - reflexivity.
  - rewrite IH by exact Hr.
    rewrite <- (match_prefix_lower (x :: l) b Hr). reflexivity.
Qed.

Lemma caseless_lits l : caseless (lits LitI l).
Proof. induction l; simpl; repeat constructor; assumption. Qed.

(** X1.  On a string [has_phab_markers] always answers, and answers true
    exactly when the text holds the label "Differential Revision: ", a run
    of word characters, colons, slashes and dots, a capital D and at least
    three digits, anywhere in it. *)
Theorem has_phab_markers_spec s :
  exists b,
    has_phab_markers (JStr s) = Ok b /\
    (b = true <-> has_revision_marker s).
Proof.
  exists (search PHABRICATOR_COMMIT_RE s). split; [reflexivity|].
  apply search_phab.
Qed.

Lemma has_phab_markers_spec_witness :
  has_phab_markers
    (JStr "Bug 1 - x. Differential Revision: https://phabricator.services.mozilla.com/D861")
  = Ok true.
Proof.
  destruct (has_phab_markers_spec
    "Bug 1 - x. Differential Revision: https://phabricator.services.mozilla.com/D861")
    as (b & E & Hb).
  rewrite E. f_equal. apply Hb.
  exists "Bug 1 - x. ", "https://phabricator.services.mozilla.com/",
    "861", "".
  repeat split. simpl. lia.
Defined.

(** X2.  Text around a summary never hides its Phabricator marker: if
    [has_phab_markers] is true on [s] it is true on [before ++ s ++ after]. *)
Theorem has_phab_markers_in_context before s after :
  has_phab_markers (JStr s) = Ok true ->
  has_phab_markers (JStr (before ++ s ++ after)) = Ok true.
Proof.
  intro H. injection H as H. apply search_phab in H.
  destruct H as (pre & addr & digits & post & -> & Ha & Hn & Hd).
  unfold has_phab_markers, re_search. f_equal. apply search_phab.
  exists (before ++ pre), addr, digits, (post ++ after).
  repeat split; try assumption.
  rewrite !append_assoc. reflexivity.
Qed.

Lemma has_phab_markers_in_context_witness :
  has_phab_markers
    (JStr ("Bug 1447193 - Fix it. r=me "
           ++ "Differential Revision: https://x/D861" ++ " (landed)"))
  = Ok true.
Proof.
  apply has_phab_markers_in_context. reflexivity.
Defined.

Lemma has_backout_markers_lowercase s :
  has_backout_markers (JStr (lowercase s)) = has_backout_markers (JStr s).
Proof.
  unfold has_backout_markers, re_search, search. f_equal.
  rewrite chars_lowercase. apply search_from_lower.
  unfold BACKOUT_RE. constructor; [constructor | apply caseless_lits].
Qed.

(** X3.  [has_backout_markers] is blind to case: two summaries with the
    same lower-case form get the same answer. *)
Theorem has_backout_markers_ignores_case s t :
  lowercase s = lowercase t ->
  has_backout_markers (JStr s) = has_backout_markers (JStr t).
Proof.
  intro E.
  rewrite <- (has_backout_markers_lowercase s), E.
  apply has_backout_markers_lowercase.
Qed.

Lemma has_backout_markers_ignores_case_witness :
  has_backout_markers (JStr "BaCkEd OuT changeset B5065C61BBD7")
  = has_backout_markers (JStr "backed out changeset b5065c61bbd7").
Proof.
  apply has_backout_markers_ignores_case. reflexivity.
Defined.

(** *** Malformed commit metadata *)

(** X4.  The parents are read only when the summary is no backout: a
    backout is classified not-applicable whatever ['parents'] holds, even
    when the key is missing, while for any other summary a failing
    ['parents'] lookup is raised to the caller; no request is made. *)
Theorem parents_read_only_without_backout W revision_json s l :
  getitem revision_json "desc" = Ok (JStr s) ->
  (has_backout_markers (JStr s) = Ok true ->
   determine_review_system W revision_json l = (Ok not_applicable, l)) /\
  (forall e,
      has_backout_markers (JStr s) = Ok false ->
      getitem revision_json "parents" = Raise e ->
      determine_review_system W revision_json l = (Raise e, l)).
Proof.
  intro Hdesc.
  unfold determine_review_system, bind, lift, ret, has_merge_markers.
  rewrite Hdesc. split.
  - intro Hback. rewrite Hback. reflexivity.
  - intros e Hback Hparents. rewrite Hback, Hparents. reflexivity.
Qed.

Lemma parents_read_only_without_backout_witness :
  determine_review_system (sample_world [] JNull [] [])
    (JObj [("desc", JStr "Backed out changeset b5065c61bbd7")]) []
  = (Ok not_applicable, []) /\
  determine_review_system (sample_world [] JNull [] [])
    (JObj [("desc", JStr "Bug 1447193 - Add telemetry")]) []
  = (Raise KeyError, []).
Proof.
  split.
  - apply (proj1 (@parents_read_only_without_backout
                    (sample_world [] JNull [] [])
                    (JObj [("desc", JStr "Backed out changeset b5065c61bbd7")])
                    "Backed out changeset b5065c61bbd7" [] eq_refl)).
    reflexivity.
  - apply (proj2 (@parents_read_only_without_backout
                    (sample_world [] JNull [] [])
                    (JObj [("desc", JStr "Bug 1447193 - Add telemetry")])
                    "Bug 1447193 - Add telemetry" [] eq_refl));
      reflexivity.
Defined.

(** X5.  A commit whose ['desc'] is missing or is not a string is never
    classified, not even a merge: the lookup error, or the [TypeError] of
    [re.search], reaches the caller before any request. *)
Theorem summary_must_be_a_string W revision_json l :
  (forall e,
      getitem revision_json "desc" = Raise e ->
      determine_review_system W revision_json l = (Raise e, l)) /\
  (forall d,
      getitem revision_json "desc" = Ok d ->
      (forall s, d <> JStr s) ->
      determine_review_system W revision_json l = (Raise TypeError, l)).
Proof.
  unfold determine_review_system, bind, lift, ret. split.
  - intros e Hdesc. rewrite Hdesc. reflexivity.
  - intros d Hdesc Hd. rewrite Hdesc.
    destruct d; try reflexivity. destruct (Hd s eq_refl).
Qed.

Lemma summary_must_be_a_string_witness :
  determine_review_system (sample_world [] JNull [] [])
    (JObj [("parents", JList [JStr parent1; JStr parent2])]) []
  = (Raise KeyError, []) /\
  determine_review_system (sample_world [] JNull [] [])
    (JObj [("desc", JNull); ("parents", JList [JStr parent1; JStr parent2])])
    []
  = (Raise TypeError, []).
Proof.
  split.
  - apply (proj1 (summary_must_be_a_string _ _ _)). reflexivity.
  - apply (proj2 (summary_must_be_a_string _ _ _) JNull);
      [reflexivity | discriminate].
Defined.

(** *** Attachments and history of a fetched bug *)

(** X6.  On well-formed attachments [has_mozreview_markers] is true exactly
    when some attachment has the MozReview content type; whether the
    [is_patch] flag of that attachment is set plays no part. *)
Theorem has_mozreview_markers_by_content_type aj atts :
  attachments_of aj atts ->
  exists b,
    has_mozreview_markers aj = Ok b /\
    (b = true <->
     exists a, In a atts /\ content_type a = ATTACHMENT_TYPE_MOZREVIEW).
Proof.
  intro Hatts. eexists. split; [apply (has_mozreview_markers_typed Hatts)|].
  rewrite existsb_exists. unfold mozreview_request.
  split; intros (a & Ha & E); exists a; (split; [exact Ha|]);
    apply String.eqb_eq; exact E.
Qed.

Lemma has_mozreview_markers_by_content_type_witness :
  has_mozreview_markers
    (JList [attachment_json 1 1 "text/plain";
            attachment_json 2 0 ATTACHMENT_TYPE_MOZREVIEW])
  = Ok true.
Proof.
  assert (Hatts : attachments_of
            (JList [attachment_json 1 1 "text/plain";
                    attachment_json 2 0 ATTACHMENT_TYPE_MOZREVIEW])
            [{| is_patch_flag := 1; content_type := "text/plain" |};
             {| is_patch_flag := 0;
                content_type := ATTACHMENT_TYPE_MOZREVIEW |}]).
  { eexists. split; [reflexivity|]. repeat constructor. }
  destruct (has_mozreview_markers_by_content_type Hatts) as (b & E & Hb).
  rewrite E. f_equal. apply Hb. eexists. split; [right; left|]; reflexivity.
Defined.

Lemma comprehension_typed_app keep p pre apre rest krest :
  (forall j a, attachment_of j a -> keep j = Ok (p a)) ->
  Forall2 attachment_of pre apre ->
  comprehension keep rest = Ok krest ->
  exists kpre,
    comprehension keep (pre ++ rest)%list = Ok (kpre ++ krest)%list /\
    Forall2 attachment_of kpre (filter p apre).
Proof.
  intros Hkeep Hpre Hrest.
  induction Hpre as [|j a pre apre Hja _ (kpre & Ek & Hk)]; simpl.
  - exists []. split; [exact Hrest | constructor].
  - rewrite (Hkeep _ _ Hja). simpl. rewrite Ek. simpl.
    destruct (p a); [exists (j :: kpre) | exists kpre];
      (split; [reflexivity | auto]).
Qed.

Lemma mozreview_loop_typed_app l atts rest :
  Forall2 attachment_of l atts ->
  mozreview_loop (l ++ rest)%list =
  if existsb mozreview_request atts then Ok true else mozreview_loop rest.
Proof.
  induction 1 as [|j a l atts [_ Htype] _ IH]; [reflexivity|].
  cbn [app mozreview_loop existsb]. rewrite Htype. cbn [rbind eq_str].
  unfold mozreview_request at 1.
  destruct (String.eqb (content_type a) ATTACHMENT_TYPE_MOZREVIEW);
    [reflexivity | exact IH].
Qed.

(** X7.  A raw patch that carries no content type passes the patch filter
    and then breaks the loop that reads ['content_type']: among well-formed
    attachments, [has_mozreview_markers] raises the lookup error unless a
    MozReview request stands before that attachment in the list. *)
Theorem has_mozreview_markers_untyped_patch pre apre j flag e post apost :
  Forall2 attachment_of pre apre ->
  getitem j "is_patch" = Ok flag ->
  eq_int flag 1 = true ->
  getitem j "content_type" = Raise e ->
  Forall2 attachment_of post apost ->
  has_mozreview_markers (JList (pre ++ j :: post)) =
  if existsb mozreview_request apre then Ok true else Raise e.
Proof.
  intros Hpre Hflag Hone Htype Hpost.
  destruct (comprehension_typed is_patch patch_attachment is_patch_typed Hpost)
    as (kpost & Epost & _).
  assert (Erest : comprehension is_patch (j :: post) = Ok (j :: kpost)).
  { cbn [comprehension]. unfold is_patch at 1. rewrite Hflag. cbn [rbind].
    rewrite Hone. cbn [rbind]. rewrite Epost. reflexivity. }
  destruct (@comprehension_typed_app is_patch patch_attachment
              pre apre (j :: post) (j :: kpost)
              is_patch_typed Hpre Erest) as (kpre & Ek & Hk).
  unfold has_mozreview_markers. cbn [iter rbind]. rewrite Ek. cbn [rbind].
  rewrite (mozreview_loop_typed_app _ Hk), existsb_mozreview_filter.
  cbn [mozreview_loop]. rewrite Htype. reflexivity.
Qed.

Lemma has_mozreview_markers_untyped_patch_witness :
  has_mozreview_markers
    (JList [attachment_json 1 0 "text/plain";
            JObj [("id", JInt 2); ("is_patch", JInt 1)];
            attachment_json 3 0 ATTACHMENT_TYPE_MOZREVIEW])
  = Raise KeyError.
Proof.
  apply (@has_mozreview_markers_untyped_patch
           [attachment_json 1 0 "text/plain"]
           [{| is_patch_flag := 0; content_type := "text/plain" |}]
           (JObj [("id", JInt 2); ("is_patch", JInt 1)]) (JInt 1) KeyError
           [attachment_json 3 0 ATTACHMENT_TYPE_MOZREVIEW]
           [{| is_patch_flag := 0;
               content_type := ATTACHMENT_TYPE_MOZREVIEW |}]).
  - repeat constructor.
  - reflexivity.
  - reflexivity.
  - reflexivity.
  - repeat constructor.
Defined.

(** X8.  With well-formed records and both fetches answered, the resolver
    of a commit that is neither backout, merge nor Phabricator-marked
    follows one table: mozreview when an attachment has the MozReview
    content type; otherwise bmo when an attachment has the raw flag and the
    history holds an approval; otherwise unknown. *)
Theorem resolved_classification
    W revision_json s ps bug_id aj atts hj h l :
  commit_of revision_json s ps ->
  List.length ps <= 1 ->
  has_backout_markers (JStr s) = Ok false ->
  has_phab_markers (JStr s) = Ok false ->
  pop (parse_bugs W s) = Ok bug_id ->
  tracker_serves W bug_id aj hj ->
  attachments_of aj atts ->
  history_of hj h ->
  fst (determine_review_system W revision_json l) = Ok (decision atts h).
Proof.
  intros Hc Hle Hback Hphab Hpop Hserve Hatts Hhist.
  injection Hback as Hback. injection Hphab as Hphab.
  rewrite (determine_resolved l Hc Hle Hback Hphab Hpop Hserve).
  rewrite (has_mozreview_markers_typed Hatts), (has_bmo_typed Hatts Hhist).
  unfold decision. cbn [rbind].
  destruct (existsb mozreview_request atts); [reflexivity|].
  destruct (existsb strict_patch atts && existsb (existsb approval) h);
    reflexivity.
Qed.

Lemma resolved_classification_witness :
  fst (determine_review_system
         (sample_world [1447193%Z]
            (revision "Bug 1447193 - Add telemetry. r=glob" [parent1])
            [attachment_json 8960399 1 "text/plain"] approval_history)
         (revision "Bug 1447193 - Add telemetry. r=glob" [parent1]) [])
  = Ok bmo.
Proof.
  apply (@resolved_classification _ _
           "Bug 1447193 - Add telemetry. r=glob" [JStr parent1] 1447193%Z
           (JList [attachment_json 8960399 1 "text/plain"])
           [{| is_patch_flag := 1; content_type := "text/plain" |}]
           (JList approval_history) approval_history_typed).
  - split; reflexivity.
  - simpl. lia.
  - reflexivity.
  - reflexivity.
  - reflexivity.
  - split; intro l; eexists; reflexivity.
  - eexists. split; [reflexivity|]. repeat constructor.
  - eexists. split; [reflexivity|].
    repeat constructor. eexists. split; [reflexivity|]. repeat constructor.
Defined.

(** *** The approval token *)

Lemma split_head sep s : forall h rest,
  split sep s = h :: rest -> exists post, s = h ++ post /\ boundary sep post.
Proof.
  induction s as [|c s IH]; intros h rest E; simpl in E.
  - injection E as <- _. exists "". split; [reflexivity | left; reflexivity].
  - destruct (Ascii.eqb c sep) eqn:C.
    + injection E as <- _. apply Ascii.eqb_eq in C. subst c.
      exists (String sep s). split; [reflexivity | right; eauto].
    + destruct (split sep s) as [|h' rest'] eqn:S.
      * injection E as <- _. destruct s; simpl in S; [discriminate|].
        destruct (Ascii.eqb a sep); [discriminate|].
        destruct (split sep s); discriminate.
      * injection E as <- <-. destruct (IH _ _ eq_refl) as (post & -> & B).
        exists post. split; [reflexivity | exact B].
Qed.

Lemma split_tail sep t s :
  In t (tl (split sep s)) ->
  exists p post, s = p ++ String sep (t ++ post) /\ boundary sep post.
Proof.
  induction s as [|c s IH]; simpl; [tauto|].
  destruct (Ascii.eqb c sep) eqn:C.
  - apply Ascii.eqb_eq in C. subst c. simpl. intro Hin.
    destruct (split sep s) as [|h rest'] eqn:S; [destruct Hin|].
    destruct Hin as [<- | Hin].
    + destruct (split_head _ _ S) as (post & -> & B).
      exists "", post. split; [reflexivity | exact B].
    + destruct (IH Hin) as (p & post & -> & B).
      exists (String sep p), post. split; [reflexivity | exact B].
  - destruct (split sep s) as [|h rest'] eqn:S; simpl; [tauto|].
    intro Hin. destruct (IH Hin) as (p & post & -> & B).
    exists (String c p), post. split; [reflexivity | exact B].
Qed.

Lemma split_piece sep t : forall post,
  free_of sep t -> boundary sep post ->
  exists rest, split sep (t ++ post) = t :: rest.
Proof.
  unfold free_of, chars.
  induction t as [|c t IH]; intros post Ht B; simpl in *.
  - destruct B as [-> | (q & ->)]; simpl; [eauto|].
    rewrite Ascii.eqb_refl. eauto.
  - apply andb_true_iff in Ht as [Hc Ht].
    apply negb_true_iff in Hc. rewrite Hc.
    destruct (IH post Ht B) as (rest & ->). eauto.
Qed.

Lemma split_after sep t b : forall a,
  In t (split sep b) -> In t (tl (split sep (a ++ String sep b))).
Proof.
  induction a as [|c a IH]; intro Hin; simpl.
  - rewrite Ascii.eqb_refl. exact Hin.
  - specialize (IH Hin). destruct (Ascii.eqb c sep); simpl.
    + destruct (split sep (a ++ String sep b)); [destruct IH|].
      right. exact IH.
    + destruct (split sep (a ++ String sep b)); [destruct IH|]. exact IH.
Qed.

Lemma in_split_delimited t s :
  free_of "," t -> (In t (split "," s) <-> delimited t s).
Proof.
  intro Ht. unfold delimited. split.
  - intro Hin. destruct (split "," s) as [|h others] eqn:S; [destruct Hin|].
    destruct Hin as [<- | Hin].
    + destruct (split_head _ _ S) as (post & -> & B).
      exists "", post. repeat split; [left; reflexivity | exact B].
    + assert (Hin' : In t (tl (split "," s))) by (rewrite S; exact Hin).
      destruct (split_tail _ _ _ Hin') as (p & post & -> & B).
      exists (p ++ ","), post. repeat split.
      * rewrite append_assoc. reflexivity.
      * right. eauto.
      * exact B.
  - intros (pre & post & -> & Bpre & Bpost).
    destruct (@split_piece "," t post Ht Bpost) as (others & Etl).
    destruct Bpre as [-> | (p & ->)].
    + simpl. rewrite Etl. left. reflexivity.
    + rewrite append_assoc. simpl.
      assert (Hin : In t (tl (split "," (p ++ String "," (t ++ post))))).
      { apply split_after. rewrite Etl. left. reflexivity. }
      destruct (split "," (p ++ String "," (t ++ post))); [destruct Hin|].
      right. exact Hin.
Qed.

(** X9.  The scan of a group's changes is true exactly when some change on
    ['flagtypes.name'] adds a value in which [review+] is a whole
    comma-separated piece: first or right after a comma, last or right
    before a comma. *)
Theorem approval_token_is_delimited cs g :
  Forall2 change_of cs g ->
  exists b,
    changes_loop cs = Ok b /\
    (b = true <->
     exists c, In c g /\ field_name c = "flagtypes.name" /\
               delimited "review+" (added c)).
Proof.
  intro H. eexists. split; [apply (changes_loop_typed H)|].
  rewrite existsb_exists. unfold approval.
  split; intros (c & Hc & Happ); exists c; (split; [exact Hc|]).
  - apply andb_true_iff in Happ as [Hname Hadd].
    apply String.eqb_eq in Hname. split; [exact Hname|].
    apply in_split_delimited; [reflexivity|].
    apply existsb_exists in Hadd as (t & Ht & Et).
    apply String.eqb_eq in Et. subst t. exact Ht.
  - destruct Happ as [Hname Hadd]. apply andb_true_iff. split.
    + apply String.eqb_eq. exact Hname.
    + apply existsb_exists. exists "review+". split; [|apply String.eqb_refl].
      apply in_split_delimited; [reflexivity | exact Hadd].
Qed.

Lemma approval_token_is_delimited_witness :
  changes_loop [change_json "flagtypes.name" "feedback+, review+"]
  = Ok false /\
  changes_loop [change_json "flagtypes.name" "review?(a@b.c),review+,feedback+"]
  = Ok true.
Proof.
  split; [reflexivity|].
  destruct (@approval_token_is_delimited
              [change_json "flagtypes.name" "review?(a@b.c),review+,feedback+"]
              [{| field_name := "flagtypes.name";
                  added := "review?(a@b.c),review+,feedback+" |}])
    as (b & E & Hb).
  - repeat constructor.
  - rewrite E. f_equal. apply Hb. eexists. split; [left; reflexivity|].
    split; [reflexivity|].
    exists "review?(a@b.c),", ",feedback+". repeat split.
    + right. exists "review?(a@b.c)". reflexivity.
    + right. exists "feedback+". reflexivity.
Defined.

(** *** Requests to the tracker *)

Lemma raise_for_status_passes r :
  passes r -> raise_for_status r = Ok tt.
Proof.
  unfold passes, raise_for_status. intro H.
  destruct (400 <=? status_code r)%Z eqn:A; [|reflexivity].
  destruct (status_code r <? 600)%Z eqn:B; [|reflexivity].
  apply Z.leb_le in A. apply Z.ltb_lt in B. lia.
Qed.

Lemma raise_for_status_fails r :
  ~ passes r -> raise_for_status r = Raise (HTTPError (status_code r)).
Proof.
  unfold passes, raise_for_status. intro H.
  destruct (400 <=? status_code r)%Z eqn:A;
    [destruct (status_code r <? 600)%Z eqn:B; [reflexivity|]|].
  - apply Z.ltb_ge in B. lia.
  - apply Z.leb_gt in A. lia.
Qed.

Lemma passes_dec r : passes r \/ ~ passes r.
Proof. unfold passes. lia. Qed.

Lemma fetch_attachments_log W bug_id l :
  snd (fetch_attachments W bug_id l) = (l ++ [attachments_url bug_id])%list.
Proof.
  unfold fetch_attachments, bind, lift, requests_get.
  fold (attachments_url bug_id).
  destruct (server W (attachments_url bug_id)) as [r|e]; [|reflexivity].
  destruct (raise_for_status r); reflexivity.
Qed.

Lemma fetch_bug_history_log W bug_id l :
  snd (fetch_bug_history W bug_id l) = (l ++ [history_url bug_id])%list.
Proof.
  unfold fetch_bug_history, bind, lift, requests_get.
  fold (history_url bug_id).
  destruct (server W (history_url bug_id)) as [r|e]; [|reflexivity].
  destruct (raise_for_status r); reflexivity.
Qed.

(** X10.  [fetch_attachments] makes exactly one request, to the attachment
    address of the bug, whatever comes of it.  It returns [a] exactly when
    the server answers with a status outside 400..599 and a JSON body whose
    ['bugs'] object has [a] under the bug id written in decimal; a status
    in 400..599 raises [HTTPError] with that status. *)
Theorem fetch_attachments_spec W bug_id l :
  snd (fetch_attachments W bug_id l) = (l ++ [attachments_url bug_id])%list /\
  (forall a,
      fst (fetch_attachments W bug_id l) = Ok a <->
      exists r j bugs,
        server W (attachments_url bug_id) = Ok r /\ passes r /\
        body r = Some j /\
        getitem j "bugs" = Ok bugs /\
        getitem bugs (str_of_int bug_id) = Ok a) /\
  (forall r,
      server W (attachments_url bug_id) = Ok r ->
      ~ passes r ->
      fst (fetch_attachments W bug_id l) = Raise (HTTPError (status_code r))).
Proof.
  split; [apply fetch_attachments_log|].
  unfold fetch_attachments, bind, lift, requests_get, response_json.
  fold (attachments_url bug_id). split.
  - intro a. split.
    + destruct (server W (attachments_url bug_id)) as [r|e];
        [|discriminate].
      destruct (passes_dec r) as [P|P];
        [rewrite (raise_for_status_passes P)
        |rewrite (raise_for_status_fails P); discriminate].
      cbn [fst]. destruct (body r) as [j|] eqn:Hj; [|discriminate].
      cbn [rbind].
      destruct (getitem j "bugs") as [bugs|] eqn:B; [|discriminate].
      cbn [rbind]. intro E. exists r, j, bugs.
      repeat (split; [assumption || reflexivity|]). assumption.
    + intros (r & j & bugs & -> & P & Hj & Hbugs & Ha).
      rewrite (raise_for_status_passes P), Hj. cbn [fst rbind].
      rewrite Hbugs. exact Ha.
  - intros r -> P. rewrite (raise_for_status_fails P). reflexivity.
Qed.

Lemma fetch_attachments_spec_witness :
  fst (fetch_attachments
         (sample_world [] JNull [attachment_json 1 1 "text/plain"] [])
         1447193 [])
  = Ok (JList [attachment_json 1 1 "text/plain"]).
Proof.
  apply (proj1 (proj2 (fetch_attachments_spec
                         (sample_world [] JNull
                            [attachment_json 1 1 "text/plain"] [])
                         1447193 []))).
  eexists _, _, _. repeat split; try reflexivity.
  unfold passes. simpl. lia.
Defined.

(** X11.  [fetch_bug_history] makes exactly one request, to the history
    address of the bug.  It returns [h] exactly when the server answers with
    a status outside 400..599 and a JSON body whose ['bugs'] has a first
    element with [h] under ['history']; a status in 400..599 raises
    [HTTPError] with that status. *)
Theorem fetch_bug_history_spec W bug_id l :
  snd (fetch_bug_history W bug_id l) = (l ++ [history_url bug_id])%list /\
  (forall h,
      fst (fetch_bug_history W bug_id l) = Ok h <->
      exists r j bugs bug,
        server W (history_url bug_id) = Ok r /\ passes r /\
        body r = Some j /\
        getitem j "bugs" = Ok bugs /\
        getitem0 bugs = Ok bug /\
        getitem bug "history" = Ok h) /\
  (forall r,
      server W (history_url bug_id) = Ok r ->
      ~ passes r ->
      fst (fetch_bug_history W bug_id l) = Raise (HTTPError (status_code r))).
Proof.
  split; [apply fetch_bug_history_log|].
  unfold fetch_bug_history, bind, lift, requests_get, response_json.
  fold (history_url bug_id). split.
  - intro h. split.
    + destruct (server W (history_url bug_id)) as [r|e]; [|discriminate].
      destruct (passes_dec r) as [P|P];
        [rewrite (raise_for_status_passes P)
        |rewrite (raise_for_status_fails P); discriminate].
      cbn [fst]. destruct (body r) as [j|] eqn:Hj; [|discriminate].
      cbn [rbind].
      destruct (getitem j "bugs") as [bugs|] eqn:B; [|discriminate].
      cbn [rbind].
      destruct (getitem0 bugs) as [bug|] eqn:B0; [|discriminate].
      cbn [rbind]. intro E. exists r, j, bugs, bug.
      repeat (split; [assumption || reflexivity|]). assumption.
    + intros (r & j & bugs & bug & -> & P & Hj & Hbugs & Hbug & Hh).
      rewrite (raise_for_status_passes P), Hj. cbn [fst rbind].
      rewrite Hbugs. cbn [rbind]. rewrite Hbug. exact Hh.
  - intros r -> P. rewrite (raise_for_status_fails P). reflexivity.
Qed.

Lemma fetch_bug_history_spec_witness :
  fst (fetch_bug_history
         (sample_world [] JNull [] approval_history) 1447193 [])
  = Ok (JList approval_history).
Proof.
  apply (proj1 (proj2 (fetch_bug_history_spec
                         (sample_world [] JNull [] approval_history)
                         1447193 []))).
  eexists _, _, _, _. repeat split; try reflexivity.
  unfold passes. simpl. lia.
Defined.

(** *** The requests of the resolver *)

Lemma pop_last {A} (l : list A) x :
  pop l = Ok x -> exists init, l = (init ++ [x])%list.
Proof.
  unfold pop. destruct (rev l) as [|y r] eqn:E; [discriminate|].
  intro H. injection H as ->. exists (rev r).
  rewrite <- (rev_involutive l), E. reflexivity.
Qed.

Ltac fetch_logs :=
  repeat match goal with
  | E : fetch_attachments ?W ?b ?l = (_, ?l1) |- _ =>
      let L := fresh "L" in
      pose proof (fetch_attachments_log W b l) as L;
      rewrite E in L; cbn [snd] in L; subst l1
  | E : fetch_bug_history ?W ?b ?l = (_, ?l1) |- _ =>
      let L := fresh "L" in
      pose proof (fetch_bug_history_log W b l) as L;
      rewrite E in L; cbn [snd] in L; subst l1
  end.

Lemma determine_requests_shape W revision_json l :
  snd (determine_review_system W revision_json l) = l \/
  exists s init bug_id,
    getitem revision_json "desc" = Ok (JStr s) /\
    parse_bugs W s = (init ++ [bug_id])%list /\
    (snd (determine_review_system W revision_json l)
     = (l ++ [attachments_url bug_id])%list \/
     snd (determine_review_system W revision_json l)
     = (l ++ [attachments_url bug_id; history_url bug_id])%list).
Proof.
  unfold determine_review_system, bind, lift, ret, raise.
  destruct (getitem revision_json "desc") as [d|e] eqn:Hd;
    [|left; reflexivity].
  destruct (has_backout_markers d) as [[|]|e]; try (left; reflexivity).
  destruct (has_merge_markers revision_json) as [[|]|e];
    try (left; reflexivity).
  destruct (has_phab_markers d) as [[|]|e]; try (left; reflexivity).
  destruct d as [| | |s| |]; try (left; reflexivity).
  destruct (pop (parse_bugs W s)) as [bug_id|e] eqn:Hpop;
    [|destruct e; left; reflexivity].
  destruct (pop_last _ Hpop) as (init & Hbugs).
  right. exists s, init, bug_id. split; [reflexivity|]. split; [exact Hbugs|].
  destruct (fetch_attachments W bug_id l) as [[aj|e] l1] eqn:Fa; fetch_logs;
    [|left; reflexivity].
  destruct (fetch_bug_history W bug_id _) as [[hj|e] l2] eqn:Fh; fetch_logs;
    rewrite <- app_assoc; [|right; reflexivity].
  destruct (has_mozreview_markers aj) as [[|]|e]; try (right; reflexivity).
  destruct (has_bmo_patch_review_markers aj hj) as [[|]|e];
    right; reflexivity.
Qed.

(** X12.  A run of [determine_review_system], returning or raising, makes
    no request, or one to the attachment address, or that one followed by
    one to the history address; both are for the last bug that [parse_bugs]
    finds in the summary. *)
Theorem determine_review_system_requests W revision_json l :
  snd (determine_review_system W revision_json l) = l \/
  exists s init bug_id,
    getitem revision_json "desc" = Ok (JStr s) /\
    parse_bugs W s = (init ++ [bug_id])%list /\
    (snd (determine_review_system W revision_json l)
     = (l ++ [attachments_url bug_id])%list \/
     snd (determine_review_system W revision_json l)
     = (l ++ [attachments_url bug_id; history_url bug_id])%list).
Proof. apply determine_requests_shape. Qed.

Lemma determine_review_system_requests_witness :
  snd (determine_review_system
         (sample_world [1%Z; 1447193%Z] JNull [] [])
         (revision "Bug 1, bug 1447193 - Add telemetry" [parent1]) [])
  = [attachments_url 1447193; history_url 1447193].
Proof.
  destruct (determine_review_system_requests
              (sample_world [1%Z; 1447193%Z] JNull [] [])
              (revision "Bug 1, bug 1447193 - Add telemetry" [parent1]) [])
    as [E | (s & init & b & _ & _ & [E | E])];
    rewrite E; vm_compute in E |- *; congruence.
Defined.

(** X13.  What is returned tells what was requested: not_applicable and
    phabricator come without any request, mozreview and bmo only after the
    attachments and then the history of one bug were requested, and unknown
    in either way. *)
Theorem classification_tells_requests W revision_json l system l' :
  determine_review_system W revision_json l = (Ok system, l') ->
  match system with
  | not_applicable | phabricator => l' = l
  | mozreview | bmo =>
      exists bug_id,
        l' = (l ++ [attachments_url bug_id; history_url bug_id])%list
  | unknown =>
      l' = l \/
      exists bug_id,
        l' = (l ++ [attachments_url bug_id; history_url bug_id])%list
  end.
Proof.
  unfold determine_review_system, bind, lift, ret, raise.
  destruct (getitem revision_json "desc") as [d|e]; [|discriminate].
  destruct (has_backout_markers d) as [[|]|e]; try discriminate.
  { intro H. injection H as <- <-. reflexivity. }
  destruct (has_merge_markers revision_json) as [[|]|e]; try discriminate.
  { intro H. injection H as <- <-. reflexivity. }
  destruct (has_phab_markers d) as [[|]|e]; try discriminate.
  { intro H. injection H as <- <-. reflexivity. }
  destruct d as [| | |s| |]; try discriminate.
  destruct (pop (parse_bugs W s)) as [bug_id|e].
  2:{ destruct e; try discriminate.
      intro H. injection H as <- <-. left. reflexivity. }
  destruct (fetch_attachments W bug_id l) as [[aj|e] l1] eqn:Fa; fetch_logs;
    [|discriminate].
  destruct (fetch_bug_history W bug_id _) as [[hj|e] l2] eqn:Fh; fetch_logs;
    rewrite <- app_assoc; [|discriminate].
  destruct (has_mozreview_markers aj) as [[|]|e]; try discriminate.
  { intro H. injection H as <- <-. eauto. }
  destruct (has_bmo_patch_review_markers aj hj) as [[|]|e];
    try discriminate; intro H; injection H as <- <-; eauto.
Qed.

Lemma classification_tells_requests_witness :
  exists bug_id,
    [attachments_url 1447193; history_url 1447193]
    = ([] ++ [attachments_url bug_id; history_url bug_id])%list.
Proof.
  apply (@classification_tells_requests
           (sample_world [1447193%Z] JNull
              [attachment_json 1 0 ATTACHMENT_TYPE_MOZREVIEW] [])
           (revision "Bug 1447193 - Add telemetry" [parent1]) []
           mozreview).
  reflexivity.
Defined.

(** X14.  A tracker failure is never turned into a classification.  When
    the attachments cannot be fetched the error is raised and the history
    is not requested; when the history cannot be fetched the error is
    raised whatever the attachments hold, MozReview requests included. *)
Theorem tracker_failure_is_raised W revision_json s ps bug_id l :
  commit_of revision_json s ps ->
  List.length ps <= 1 ->
  has_backout_markers (JStr s) = Ok false ->
  has_phab_markers (JStr s) = Ok false ->
  pop (parse_bugs W s) = Ok bug_id ->
  (forall e,
      fst (fetch_attachments W bug_id l) = Raise e ->
      determine_review_system W revision_json l
      = (Raise e, (l ++ [attachments_url bug_id])%list)) /\
  (forall aj e,
      fst (fetch_attachments W bug_id l) = Ok aj ->
      fst (fetch_bug_history W bug_id (l ++ [attachments_url bug_id])%list)
      = Raise e ->
      determine_review_system W revision_json l
      = (Raise e,
         (l ++ [attachments_url bug_id; history_url bug_id])%list)).
Proof.
  intros [Hdesc Hparents] Hle Hback Hphab Hpop.
  injection Hphab as Hphab.
  unfold determine_review_system, bind, lift, ret, has_merge_markers.
  rewrite Hdesc, Hback, Hparents. cbn [rbind len fst snd].
  replace (1 <? List.length ps)%nat with false
    by (symmetry; apply Nat.ltb_ge; exact Hle).
  cbn [has_phab_markers re_search]. rewrite Hphab, Hpop.
  destruct (fetch_attachments W bug_id l) as [ra l1] eqn:Fa; fetch_logs.
  split.
  - intros e E. cbn [fst] in E. subst ra. reflexivity.
  - intros aj e E. cbn [fst] in E. subst ra.
    destruct (fetch_bug_history W bug_id _) as [rh l2] eqn:Fh; fetch_logs.
    intro E. cbn [fst] in E. subst rh. rewrite <- app_assoc. reflexivity.
Qed.

Import Samples.

Lemma tracker_failure_is_raised_witness :
  determine_review_system
    (sample_world [7%Z] JNull [] [])
    (revision "Bug 7 - Add telemetry" [parent1]) []
  = (Raise (HTTPError 404), [attachments_url 7]) /\
  determine_review_system
    (history_down [attachment_json 1 0 ATTACHMENT_TYPE_MOZREVIEW])
    (revision "Bug 1447193 - Add telemetry" [parent1]) []
  = (Raise (HTTPError 503),
     [attachments_url 1447193; history_url 1447193]).
Proof.
  split.
  { apply (proj1 (@tracker_failure_is_raised
                    (sample_world [7%Z] JNull [] [])
                    (revision "Bug 7 - Add telemetry" [parent1])
                    "Bug 7 - Add telemetry" [JStr parent1] 7%Z []
                    (conj eq_refl eq_refl) (le_n 1) eq_refl eq_refl eq_refl)).
    reflexivity. }
  apply (proj2 (@tracker_failure_is_raised
                  (history_down [attachment_json 1 0 ATTACHMENT_TYPE_MOZREVIEW])
                  (revision "Bug 1447193 - Add telemetry" [parent1])
                  "Bug 1447193 - Add telemetry" [JStr parent1] 1447193%Z []
                  (conj eq_refl eq_refl) (le_n 1) eq_refl eq_refl eq_refl)
           (JList [attachment_json 1 0 ATTACHMENT_TYPE_MOZREVIEW]));
    reflexivity.
Defined.

(** *** Which exceptions can come out *)

Lemma tame_ok {A} (a : A) : tame (Ok a).
Proof. intros e H. discriminate. Qed.

Lemma tame_raise {A} e : foreign e -> tame (@Raise A e).
Proof. intros F e' H. injection H as <-. exact F. Qed.

Lemma tame_rbind {A B} (m : result A) (k : A -> result B) :
  tame m -> (forall a, tame (k a)) -> tame (rbind m k).
Proof.
  intros Hm Hk e. destruct m as [a|e']; simpl.
  - apply Hk.
  - intro H. injection H as <-. apply Hm. reflexivity.
Qed.

Ltac tame_cases :=
  repeat match goal with
  | |- tame (Ok _) => apply tame_ok
  | |- tame (Raise _) => apply tame_raise; exact I
  | |- tame (match ?x with _ => _ end) => destruct x
  | |- tame (if ?x then _ else _) => destruct x
  end.

Lemma tame_getitem o k : tame (getitem o k).
Proof. unfold getitem. tame_cases. Qed.

Lemma tame_getitem0 o : tame (getitem0 o).
Proof. unfold getitem0. tame_cases. Qed.

Lemma tame_iter o : tame (iter o).
Proof. unfold iter. tame_cases. Qed.

Lemma tame_len o : tame (len o).
Proof. unfold len. tame_cases. Qed.

Lemma tame_re_search r o : tame (re_search r o).
Proof. unfold re_search. tame_cases. Qed.

Lemma tame_split_comma o : tame (split_comma o).
Proof. unfold split_comma. tame_cases. Qed.

Lemma tame_raise_for_status r : tame (raise_for_status r).
Proof. unfold raise_for_status. tame_cases. Qed.

Lemma tame_response_json r : tame (response_json r).
Proof. unfold response_json. tame_cases. Qed.

Lemma tame_pop {A} (l : list A) : tame (pop l).
Proof. unfold pop. tame_cases. Qed.

Ltac tame_step :=
  first [ apply tame_ok
        | apply tame_getitem | apply tame_getitem0 | apply tame_iter
        | apply tame_len | apply tame_re_search | apply tame_split_comma
        | apply tame_raise_for_status | apply tame_response_json
        | apply tame_pop
        | apply tame_rbind; [|intro]
        | assumption ].

Lemma tame_is_patch j : tame (is_patch j).
Proof.
  unfold is_patch. apply tame_rbind; [tame_step | intro flag].
  destruct (eq_int flag 1); repeat tame_step.
Qed.

Lemma tame_comprehension keep l :
  (forall j, tame (keep j)) -> tame (comprehension keep l).
Proof.
  intro Hkeep. induction l as [|a l IH]; simpl; [apply tame_ok|].
  apply tame_rbind; [apply Hkeep | intro k].
  apply tame_rbind; [exact IH | intro kept]. apply tame_ok.
Qed.

Lemma tame_mozreview_loop l : tame (mozreview_loop l).
Proof.
  induction l as [|a l IH]; cbn [mozreview_loop]; [apply tame_ok|].
  apply tame_rbind; [tame_step | intro ct].
  destruct (eq_str ct ATTACHMENT_TYPE_MOZREVIEW); [apply tame_ok | exact IH].
Qed.

Lemma tame_has_mozreview_markers aj : tame (has_mozreview_markers aj).
Proof.
  unfold has_mozreview_markers.
  apply tame_rbind; [tame_step | intro l].
  apply tame_rbind; [|intro; apply tame_mozreview_loop].
  apply tame_comprehension. apply tame_is_patch.
Qed.

Lemma tame_changes_loop l : tame (changes_loop l).
Proof.
  induction l as [|a l IH]; cbn [changes_loop]; [apply tame_ok|].
  apply tame_rbind; [tame_step | intro name].
  destruct (negb (eq_str name "flagtypes.name")); [exact IH|].
  apply tame_rbind; [tame_step | intro added].
  apply tame_rbind; [tame_step | intro flags].
  destruct (existsb (String.eqb "review+") flags); [apply tame_ok | exact IH].
Qed.

Lemma tame_history_loop l : tame (history_loop l).
Proof.
  induction l as [|a l IH]; cbn [history_loop]; [apply tame_ok|].
  apply tame_rbind; [tame_step | intro cs].
  apply tame_rbind; [tame_step | intro changes].
  apply tame_rbind; [apply tame_changes_loop | intro found].
  destruct found; [apply tame_ok | exact IH].
Qed.

Lemma tame_has_bmo aj hj : tame (has_bmo_patch_review_markers aj hj).
Proof.
  unfold has_bmo_patch_review_markers.
  apply tame_rbind; [tame_step | intro l].
  apply tame_rbind.
  - apply tame_comprehension. intro j. repeat tame_step.
  - intros [|p patches]; [apply tame_ok|].
    apply tame_rbind; [tame_step | intro]. apply tame_history_loop.
Qed.

Lemma tame_has_merge_markers j : tame (has_merge_markers j).
Proof. unfold has_merge_markers. repeat tame_step. Qed.

Ltac by_tame lemma H := apply tame_raise; eapply lemma; exact H.

Lemma tame_fetch_attachments W bug_id l :
  network W -> tame (fst (fetch_attachments W bug_id l)).
Proof.
  intro N. unfold fetch_attachments, bind, lift, requests_get.
  destruct (server W _) as [r|e] eqn:S.
  - destruct (raise_for_status r) as [[]|e] eqn:R; cbn [fst].
    + repeat tame_step.
    + by_tame tame_raise_for_status R.
  - cbn [fst]. apply tame_raise. exact (N _ _ S).
Qed.

Lemma tame_fetch_bug_history W bug_id l :
  network W -> tame (fst (fetch_bug_history W bug_id l)).
Proof.
  intro N. unfold fetch_bug_history, bind, lift, requests_get.
  destruct (server W _) as [r|e] eqn:S.
  - destruct (raise_for_status r) as [[]|e] eqn:R; cbn [fst].
    + repeat tame_step.
    + by_tame tame_raise_for_status R.
  - cbn [fst]. apply tame_raise. exact (N _ _ S).
Qed.

(** The resolver never raises the module's own exception. *)
Lemma tame_determine_review_system W revision_json l :
  network W -> tame (fst (determine_review_system W revision_json l)).
Proof.
  intro N. unfold determine_review_system, bind, lift, ret, raise.
  destruct (getitem revision_json "desc") as [d|e] eqn:Hd;
    [|by_tame tame_getitem Hd].
  destruct (has_backout_markers d) as [[|]|e] eqn:Hb; cbn [fst];
    [apply tame_ok | | by_tame tame_re_search Hb].
  destruct (has_merge_markers revision_json) as [[|]|e] eqn:Hm; cbn [fst];
    [apply tame_ok | | by_tame tame_has_merge_markers Hm].
  destruct (has_phab_markers d) as [[|]|e] eqn:Hp; cbn [fst];
    [apply tame_ok | | by_tame tame_re_search Hp].
  destruct d as [| | |s| |]; try (apply tame_raise; exact I).
  destruct (pop (parse_bugs W s)) as [bug_id|e] eqn:Hpop.
  2:{ destruct e; try apply tame_ok; cbn [fst]; by_tame @tame_pop Hpop. }
  pose proof (tame_fetch_attachments bug_id l N) as Ta.
  destruct (fetch_attachments W bug_id l) as [[aj|e] l1];
    [|apply tame_raise; exact (Ta e eq_refl)].
  pose proof (tame_fetch_bug_history bug_id l1 N) as Th.
  destruct (fetch_bug_history W bug_id l1) as [[hj|e] l2];
    [|apply tame_raise; exact (Th e eq_refl)].
  destruct (has_mozreview_markers aj) as [[|]|e] eqn:Hmoz; cbn [fst];
    [apply tame_ok | | by_tame tame_has_mozreview_markers Hmoz].
  destruct (has_bmo_patch_review_markers aj hj) as [[|]|e] eqn:Hbmo;
    cbn [fst]; [apply tame_ok | apply tame_ok |].
  by_tame tame_has_bmo Hbmo.
Qed.

Lemma sample_world_network bugs commit attachments bug_history :
  network (sample_world bugs commit attachments bug_history).
Proof.
  intros url e H. cbn [server sample_world] in H.
  repeat match type of H with
         | (if ?c then _ else _) = _ => destruct c
         end; discriminate.
Qed.

(** *** The payload builder and the command *)

(** X15.  No failure other than a 404 is translated: when the repository
    cannot be reached the error of [requests] is raised, a status in
    400..599 other than 404 raises [HTTPError] with that status, and a body
    that is not JSON raises [ValueError]; in each case the repository
    request is the only one made. *)
Theorem payload_other_failures W changesetid repo_url l :
  (forall e,
      server W (changeset_url repo_url changesetid) = Raise e ->
      payload_for_changeset W changesetid repo_url l
      = (Raise e, (l ++ [changeset_url repo_url changesetid])%list)) /\
  (forall r,
      server W (changeset_url repo_url changesetid) = Ok r ->
      ~ passes r ->
      status_code r <> 404%Z ->
      payload_for_changeset W changesetid repo_url l
      = (Raise (HTTPError (status_code r)),
         (l ++ [changeset_url repo_url changesetid])%list)) /\
  (forall r,
      server W (changeset_url repo_url changesetid) = Ok r ->
      passes r ->
      body r = None ->
      payload_for_changeset W changesetid repo_url l
      = (Raise ValueError, (l ++ [changeset_url repo_url changesetid])%list)).
Proof.
  unfold payload_for_changeset, bind, lift, raise, requests_get.
  fold (changeset_url repo_url changesetid). repeat split.
  - intros e ->. reflexivity.
  - intros r -> P H404. apply Z.eqb_neq in H404. rewrite H404.
    rewrite (raise_for_status_fails P). reflexivity.
  - intros r -> P Hbody.
    assert (H404 : (status_code r =? 404)%Z = false).
    { apply Z.eqb_neq. unfold passes in P. lia. }
    rewrite H404, (raise_for_status_passes P).
    unfold response_json. rewrite Hbody. reflexivity.
Qed.

Lemma payload_other_failures_witness :
  payload_for_changeset (history_down []) node repo []
  = (Raise (HTTPError 503), [changeset_url repo node]).
Proof.
  apply (proj1 (proj2 (payload_other_failures (history_down []) node repo []))
           {| status_code := 503; body := None |}).
  - reflexivity.
  - unfold passes. simpl. lia.
  - discriminate.
Defined.

Lemma payload_no_such_inv W changesetid repo_url l msg l' :
  network W ->
  payload_for_changeset W changesetid repo_url l
  = (Raise (NoSuchChangeset msg), l') ->
  l' = (l ++ [changeset_url repo_url changesetid])%list /\
  exists r,
    server W (changeset_url repo_url changesetid) = Ok r /\
    status_code r = 404%Z.
Proof.
  intro N. unfold payload_for_changeset, bind, lift, raise, ret, requests_get.
  fold (changeset_url repo_url changesetid).
  destruct (server W (changeset_url repo_url changesetid)) as [r|e] eqn:S.
  - destruct (status_code r =? 404)%Z eqn:E.
    + intro H. injection H as _ <-. split; [reflexivity|].
      exists r. split; [reflexivity | apply Z.eqb_eq; exact E].
    + intro H. exfalso.
      destruct (raise_for_status r) as [[]|e] eqn:R.
      * destruct (response_json r) as [j|e] eqn:J.
        -- pose proof (tame_determine_review_system j
                         (l ++ [changeset_url repo_url changesetid])%list N)
             as T.
           destruct (determine_review_system W j _) as [[system|e] l1];
             [discriminate|].
           cbn [fst] in T. injection H as -> _. exact (T _ eq_refl).
        -- injection H as -> _. exact (@tame_response_json r _ J).
      * injection H as -> _. exact (@tame_raise_for_status r _ R).
  - intro H. injection H as -> _. destruct (N _ _ S).
Qed.

Lemma payload_ok_inv W changesetid repo_url l p l' :
  payload_for_changeset W changesetid repo_url l = (Ok p, l') ->
  exists system, p = telemetry_record changesetid system.
Proof.
  unfold payload_for_changeset, bind, lift, raise, ret, requests_get.
  destruct (server W _) as [r|e]; [|discriminate].
  destruct (status_code r =? 404)%Z; [discriminate|].
  destruct (raise_for_status r); [|discriminate].
  destruct (response_json r) as [j|e]; [|discriminate].
  destruct (determine_review_system W j _) as [[system|e] l2];
    [|discriminate].
  intro H. injection H as <- _. exists system. reflexivity.
Qed.

(** X16.  As long as [requests.get] raises only exceptions of its own,
    [payload_for_changeset] raises [NoSuchChangeset] exactly when the
    repository answers 404 for the changeset: a 404 of the tracker, or any
    other failure further on, is never reported as a missing changeset. *)
Theorem no_such_changeset_iff_404 W changesetid repo_url l :
  network W ->
  ((exists msg,
       fst (payload_for_changeset W changesetid repo_url l)
       = Raise (NoSuchChangeset msg)) <->
   (exists r,
       server W (changeset_url repo_url changesetid) = Ok r /\
       status_code r = 404%Z)).
Proof.
  intro N. split.
  - intros (msg & H).
    destruct (payload_for_changeset W changesetid repo_url l) as [res l']
      eqn:P.
    cbn [fst] in H. subst res.
    apply (@payload_no_such_inv _ _ _ _ _ _ N P).
  - intros (r & S & E).
    unfold payload_for_changeset, bind, lift, raise, ret, requests_get.
    fold (changeset_url repo_url changesetid). rewrite S, E. cbn. eauto.
Qed.

Lemma no_such_changeset_iff_404_witness :
  exists r,
    server (sample_world [] JNull [] [])
      (changeset_url repo "0000000000000000000000000000000000000000")
    = Ok r /\ status_code r = 404%Z.
Proof.
  apply (proj1 (@no_such_changeset_iff_404
                  (sample_world [] JNull [] [])
                  "0000000000000000000000000000000000000000" repo []
                  (sample_world_network [] JNull [] []))).
  eexists. reflexivity.
Defined.

(** X17.  [dump_telemetry] ends in one of three ways.  It returns after
    printing one record, made of the changeset id and a classification
    token; or it exits with status 1 after printing the error line, which
    happens only when the repository answered 404 and nothing else was
    requested; or an exception other than [NoSuchChangeset] leaves it
    uncaught and neither record nor error line is printed.  With [--debug]
    the repository line comes first in every case. *)
Theorem dump_telemetry_outcomes W debug target_repo node_id l :
  network W ->
  match dump_telemetry W debug target_repo node_id l with
  | (Returned, output, _) =>
      exists system,
        output = (shown debug target_repo
                  ++ [PPrint (telemetry_record node_id system)])%list
  | (Exited code, output, l') =>
      code = 1%Z /\
      output = (shown debug target_repo
                ++ [missing_line node_id target_repo])%list /\
      l' = (l ++ [changeset_url target_repo node_id])%list /\
      exists r,
        server W (changeset_url target_repo node_id) = Ok r /\
        status_code r = 404%Z
  | (Uncaught e, output, _) =>
      foreign e /\ output = shown debug target_repo
  end.
Proof.
  intro N. unfold dump_telemetry. fold (shown debug target_repo).
  fold (missing_line node_id target_repo).
  destruct (payload_for_changeset W node_id target_repo l) as [[p|e] l']
    eqn:P.
  - destruct (@payload_ok_inv _ _ _ _ _ _ P) as (system & ->). eauto.
  - destruct e; try (split; [exact I | reflexivity]).
    destruct (@payload_no_such_inv _ _ _ _ _ _ N P) as (-> & r & S & E).
    repeat split; eauto.
Qed.

Lemma dump_telemetry_outcomes_witness :
  match dump_telemetry (sample_world [] JNull [] []) true repo
          "0000000000000000000000000000000000000000" [] with
  | (Returned, output, _) =>
      exists system,
        output = (shown true repo
                  ++ [PPrint (telemetry_record
                                "0000000000000000000000000000000000000000"
                                system)])%list
  | (Exited code, output, l') =>
      code = 1%Z /\
      output = (shown true repo
                ++ [missing_line "0000000000000000000000000000000000000000"
                      repo])%list /\
      l' = ([] ++ [changeset_url repo
                     "0000000000000000000000000000000000000000"])%list /\
      exists r,
        server (sample_world [] JNull [] [])
          (changeset_url repo "0000000000000000000000000000000000000000")
        = Ok r /\
        status_code r = 404%Z
  | (Uncaught e, output, _) => foreign e /\ output = shown true repo
  end.
Proof.
  apply dump_telemetry_outcomes. apply sample_world_network.
Defined.

(** *** Addresses *)

Lemma str_of_int_inj n m : str_of_int n = str_of_int m -> n = m.
Proof.
  unfold str_of_int. intro E.
  assert (Hnil : forall z, Z.to_int z <> Decimal.Pos Decimal.Nil /\
                           Z.to_int z <> Decimal.Neg Decimal.Nil).
  { intro z. split; intro H; pose proof (DecimalZ.of_to z) as R;
      rewrite H in R; simpl in R; subst z; discriminate. }
  apply (f_equal NilZero.int_of_string) in E.
  rewrite !NilZero.isi in E by apply Hnil.
  injection E as E. apply DecimalZ.to_int_inj. exact E.
Qed.

Lemma last_char_differs a b x y :
  x <> y -> a ++ String x "" <> b ++ String y "".
Proof.
  intros Hxy E. apply (f_equal chars) in E. rewrite !chars_app in E.
  apply app_inj_tail in E as [_ E]. congruence.
Qed.

(** X18.  The tracker addresses identify what is asked: two bug ids with
    the same attachment address, or the same history address, are equal,
    and no attachment address is a history address. *)
Theorem tracker_addresses_identify bug_id bug_id' :
  (attachments_url bug_id = attachments_url bug_id' -> bug_id = bug_id') /\
  (history_url bug_id = history_url bug_id' -> bug_id = bug_id') /\
  attachments_url bug_id <> history_url bug_id'.
Proof.
  unfold attachments_url, history_url. repeat split.
  - intro E. do 2 apply append_inv_head in E. apply append_inv_tail in E.
    apply str_of_int_inj. exact E.
  - intro E. do 2 apply append_inv_head in E. apply append_inv_tail in E.
    apply str_of_int_inj. exact E.
  - intro E. do 2 apply append_inv_head in E. revert E.
    change "/attachment?exclude_fields=data"
      with ("/attachment?exclude_fields=dat" ++ String "a" "").
    change "/history" with ("/histor" ++ String "y" "").
    rewrite <- !append_assoc. apply last_char_differs. discriminate.
Qed.

Lemma tracker_addresses_identify_witness :
  history_url (1447000 + 193) = history_url 1447193 /\
  (1447000 + 193)%Z = 1447193%Z.
Proof.
  split; [reflexivity|].
  apply (proj1 (proj2 (tracker_addresses_identify (1447000 + 193) 1447193))).
  reflexivity.
Defined.

(** X19.  The tokens sent as telemetry tell the classifications apart: two
    members of [ReviewSystem] with the same [value] are the same member. *)
Theorem value_is_injective system system' :
  value system = value system' -> system = system'.
Proof. destruct system, system'; simpl; intro E; congruence. Qed.

Lemma value_is_injective_witness : bmo = bmo.
Proof. apply value_is_injective. reflexivity. Defined.

(** X20.  [payload_for_changeset] asks the repository first and then makes
    at most two further requests, whether it returns or raises. *)
Theorem payload_for_changeset_requests W changesetid repo_url l :
  exists further,
    snd (payload_for_changeset W changesetid repo_url l)
    = (l ++ changeset_url repo_url changesetid :: further)%list /\
    List.length further <= 2.
Proof.
  unfold payload_for_changeset, bind, lift, raise, ret, requests_get.
  fold (changeset_url repo_url changesetid).
  destruct (server W _) as [r|e]; [|exists []; split; [reflexivity | simpl; lia]].
  destruct (status_code r =? 404)%Z;
    [exists []; split; [reflexivity | simpl; lia]|].
  destruct (raise_for_status r);
    [|exists []; split; [reflexivity | simpl; lia]].
  destruct (response_json r) as [j|e];
    [|exists []; split; [reflexivity | simpl; lia]].
  pose proof (determine_requests_shape W j
                (l ++ [changeset_url repo_url changesetid])%list) as H.
  destruct (determine_review_system W j _) as [[system|e] l2];
    cbn [snd] in H |- *;
    (destruct H as [-> | (s & init & b & _ & _ & [-> | ->])];
     rewrite <- ?app_assoc;
     [exists [] | eexists [_] | eexists [_; _]];
     (split; [reflexivity | simpl; lia])).
Qed.

(** X21.  An approval is never taken back: if the check is true for a
    history, it stays true when change groups are added before or after it,
    whatever they change (the removal of the flag included). *)
Theorem approval_is_never_revoked aj atts hj h hj' earlier later :
  attachments_of aj atts ->
  history_of hj h ->
  history_of hj' (earlier ++ h ++ later)%list ->
  has_bmo_patch_review_markers aj hj = Ok true ->
  has_bmo_patch_review_markers aj hj' = Ok true.
Proof.
  intros Hatts Hh Hh'.
  rewrite (has_bmo_typed Hatts Hh), (has_bmo_typed Hatts Hh').
  intro H. injection H as H. apply andb_true_iff in H as [Hp Ha].
  rewrite Hp, !existsb_app, Ha, orb_true_r. reflexivity.
Qed.

Lemma approval_is_never_revoked_witness :
  has_bmo_patch_review_markers
    (JList [attachment_json 1 1 "text/plain"])
    (JList (approval_history ++
            [group_json "author@example.com"
               [JObj [("field_name", JStr "flagtypes.name");
                      ("removed", JStr "review+");
                      ("added", JStr "")]]]))
  = Ok true.
Proof.
  apply (@approval_is_never_revoked
           (JList [attachment_json 1 1 "text/plain"])
           [{| is_patch_flag := 1; content_type := "text/plain" |}]
           (JList approval_history) approval_history_typed
           _ []
           [[{| field_name := "flagtypes.name"; added := "" |}]]).
  - eexists. split; [reflexivity|]. repeat constructor.
  - eexists. split; [reflexivity|].
    repeat constructor. eexists. split; [reflexivity|]. repeat constructor.
  - eexists. split; [reflexivity|].
    repeat constructor; eexists; (split; [reflexivity|]); repeat constructor.
  - reflexivity.
Defined.
